(** * anyblok_media: a shallow embedding of the media, image, audio and
      video models

    The embedding follows [anyblok_media/bloks/*/models.py].  Python
    values keep the shape they have in the code: keyword arguments and
    columns that may be [None] are options, [Jsonb] columns are JSON
    values, exceptions are an explicit error type, and everything the
    code reaches outside of Python (the file system, HTTP, the clock, the
    configuration, the codec libraries) is either a component of an
    explicit [World] that is threaded through the calls or an oracle of
    the record [Ext]. *)

From Stdlib Require Import ZArith NArith List String Ascii Bool Lia.
From Stdlib Require Import DecimalString.
Import ListNotations.
Open Scope string_scope.
Set Warnings "-register-all".

(* ================================================================== *)
(** ** Python values and built-ins *)

Module Py.

(** [bytes] objects. *)
Definition bytes := list Byte.byte.

(** The exceptions the modelled code raises or lets through. *)
Inductive exn : Type :=
| Exception (msg : string)
| ConfigurationException (msg : string)
| OSError (path : string)
| RequestError (url : string)
| ValueError (msg : string)
| KeyError (key : string)
| AttributeError (msg : string)
| TypeError (msg : string)
| ZeroDivisionError
| IntegrityError (table : string)
| CodecError (msg : string).

Inductive result (A : Type) : Type :=
| Ok (a : A)
| Raise (e : exn).
Arguments Ok {A} a.
Arguments Raise {A} e.

Definition bind {A B} (r : result A) (k : A -> result B) : result B :=
  match r with
  | Ok a => k a
  | Raise e => Raise e
  end.

Definition is_ok {A} (r : result A) : bool :=
  match r with Ok _ => true | Raise _ => false end.

(** JSON values, the content of [Jsonb] columns and of [dict] literals.
    A [dict] is an association list in insertion order, as Python
    iterates it. *)
Inductive json : Type :=
| JNull
| JNum (z : Z)
| JStr (s : string)
| JList (l : list json)
| JDict (d : list (string * json)).

Definition dict := list (string * json).

Fixpoint dict_get {V} (k : string) (d : list (string * V)) : option V :=
  match d with
  | [] => None
  | (k', v) :: d' => if String.eqb k k' then Some v else dict_get k d'
  end.

(** [d[k] = v]: replaces the value of an existing key in place, appends
    a new key at the end. *)
Fixpoint dict_set {V} (k : string) (v : V) (d : list (string * V))
  : list (string * V) :=
  match d with
  | [] => [(k, v)]
  | (k', v') :: d' =>
      if String.eqb k k' then (k, v) :: d' else (k', v') :: dict_set k v d'
  end.

(** [item.get(k)], [None] for a missing key. *)
Definition json_get (k : string) (d : dict) : json :=
  match dict_get k d with Some v => v | None => JNull end.

(** Truth value testing. *)
Definition truthy_str (s : string) : bool :=
  match s with EmptyString => false | _ => true end.

Definition truthy_bytes (b : bytes) : bool :=
  match b with [] => false | _ => true end.

Definition truthy_opt {A} (t : A -> bool) (o : option A) : bool :=
  match o with None => false | Some a => t a end.

Definition truthy_json (j : json) : bool :=
  match j with
  | JNull => false
  | JNum z => negb (Z.eqb z 0)
  | JStr s => truthy_str s
  | JList l => match l with [] => false | _ => true end
  | JDict d => match d with [] => false | _ => true end
  end.

(** [str(v)] for the values that reach [str.format]; the patterns of
    the package format numbers and strings, lists and dictionaries are
    not spelled out. *)
Definition str_of_Z (z : Z) : string := NilEmpty.string_of_int (Z.to_int z).

Definition str_of_json (j : json) : string :=
  match j with
  | JNull => "None"
  | JNum z => str_of_Z z
  | JStr s => s
  | JList _ => "[...]"
  | JDict _ => "{...}"
  end.

(** *** [str] methods, on ASCII text *)

Definition lower_ascii (c : ascii) : ascii :=
  let n := nat_of_ascii c in
  if (Nat.leb 65 n && Nat.leb n 90)%bool then ascii_of_nat (n + 32) else c.

Fixpoint lower (s : string) : string :=
  match s with
  | EmptyString => EmptyString
  | String c r => String (lower_ascii c) (lower r)
  end.

Definition is_space (c : ascii) : bool :=
  let n := nat_of_ascii c in
  (Nat.eqb n 32 || (Nat.leb 9 n && Nat.leb n 13))%bool.

Fixpoint lstrip (s : string) : string :=
  match s with
  | EmptyString => EmptyString
  | String c r => if is_space c then lstrip r else s
  end.

Fixpoint rev_str (acc s : string) : string :=
  match s with
  | EmptyString => acc
  | String c r => rev_str (String c acc) r
  end.

Definition rstrip (s : string) : string :=
  rev_str "" (lstrip (rev_str "" s)).

Definition strip (s : string) : string := rstrip (lstrip s).

(** [s.split(sep)] for a one-character separator: never empty. *)
Fixpoint split (sep : ascii) (s : string) : list string :=
  match s with
  | EmptyString => [""]
  | String c r =>
      if Ascii.eqb c sep then "" :: split sep r
      else match split sep r with
           | [] => [String c ""]
           | w :: ws => String c w :: ws
           end
  end.

(** ["".join(l)]. *)
Definition join (l : list string) : string :=
  fold_right String.append "" l.

(** [l.pop()] on a list known to be non-empty: the last element and the
    list without it. *)
Fixpoint pop_last (l : list string) : list string * string :=
  match l with
  | [] => ([], "")
  | [x] => ([], x)
  | x :: r => let '(r', y) := pop_last r in (x :: r', y)
  end.

(** [pattern.format] on keyword arguments [kw], restricted to replacement fields of the form
    [{name}]: brace escapes, conversions and format specifications are
    not modelled.  A field that is not among the keyword arguments
    raises [KeyError]. *)
Fixpoint format_go (kw : list (string * string)) (s : string)
  (field : option string) : result string :=
  match s with
  | EmptyString =>
      match field with
      | None => Ok ""
      | Some _ => Raise (ValueError "expected '}' before end of string")
      end
  | String c r =>
      match field with
      | None =>
          if Ascii.eqb c "{" then format_go kw r (Some "")
          else if Ascii.eqb c "}"
          then Raise (ValueError "Single '}' encountered in format string")
          else bind (format_go kw r None) (fun t => Ok (String c t))
      | Some f =>
          if Ascii.eqb c "}" then
            match dict_get f kw with
            | Some v => bind (format_go kw r None) (fun t => Ok (v ++ t))
            | None => Raise (KeyError f)
            end
          else format_go kw r (Some (f ++ String c ""))
      end
  end.

Definition format (pattern : string) (kw : list (string * string))
  : result string :=
  format_go kw pattern None.

(** *** [os.path.split] *)

(** The text before the last ["/"] (that slash excluded) and the text
    after it; [None] when there is no slash. *)
Fixpoint rsplit_slash (s : string) : option (string * string) :=
  match s with
  | EmptyString => None
  | String c r =>
      match rsplit_slash r with
      | Some (h, t) => Some (String c h, t)
      | None => if Ascii.eqb c "/" then Some ("", r) else None
      end
  end.

Fixpoint lstrip_slash (s : string) : string :=
  match s with
  | EmptyString => EmptyString
  | String c r => if Ascii.eqb c "/" then lstrip_slash r else s
  end.

Definition rstrip_slash (s : string) : string :=
  rev_str "" (lstrip_slash (rev_str "" s)).

(** [os.path.split(p)]: the head loses its trailing slashes unless it
    consists of slashes only. *)
Definition os_path_split (p : string) : string * string :=
  match rsplit_slash p with
  | None => ("", p)
  | Some (h, t) =>
      let head := h ++ "/" in
      match rstrip_slash head with
      | EmptyString => (head, t)
      | head' => (head', t)
      end
  end.

End Py.

Import Py.

(* ================================================================== *)
(** ** The world outside the interpreter *)

(** A row of [Model.Tag]. *)
Record Tag : Type := mkTag {
  tag_uuid : nat;
  tag_name : string;
  tag_media_type : string
}.

(** A row of [Model.Media] (the columns the code reads or writes). *)
Record MediaRec : Type := mkMedia {
  uuid : nat;
  media_type : string;
  file : option bytes;
  file_path : option string;
  file_url : option string;
  filesize : option Z;
  filename : option string;
  meta : json;
  properties : json;
  state : string
}.

(** The metadata container of a media file, as [mediafile.MediaFile]
    exposes it: the tag fields that [setattr] and [save] persist, and
    the read-only [length].  The audio payload itself is not modelled. *)
Record MediaFile : Type := mkMediaFile {
  mf_fields : dict;
  mf_length : json
}.

(** The mutable state the code acts on: the file system (regular files
    and directories), the tag containers [MediaFile] decodes from the
    files, and the three tables of the entity store.  [Model.MediaTag]
    rows are pairs (media uuid, tag uuid); primary keys come from
    [next_uuid].  An audio or video file is present as its container
    in [mediafiles]: the bytes that [MediaFile.save] writes for it are
    not modelled, and [disk] says nothing of them. *)
Record World : Type := mkWorld {
  disk : list (string * bytes);
  dirs : list string;
  mediafiles : list (string * MediaFile);
  media_table : list MediaRec;
  tag_table : list Tag;
  media_tag_table : list (nat * nat);
  next_uuid : nat
}.

(** [PIL.Image]: a decoded image as the transformations see it, that
    is, its size.  [resize] returns an image of the requested size and
    refuses an empty one; [crop] returns the content of the box, which
    may reach outside of the image, so that its size is the size of the
    box. *)
Module PIL.

Record Image : Type := mkImg {
  width : Z;
  height : Z
}.

Definition resize (img : Image) (size : Z * Z) : result Image :=
  if ((fst size <? 1) || (snd size <? 1))%Z%bool
  then Raise (ValueError "height and width must be > 0")
  else Ok (mkImg (fst size) (snd size)).

Definition crop (img : Image) (box : Z * Z * Z * Z) : Image :=
  let '(x0, y0, x1, y1) := box in
  mkImg (x1 - x0) (y1 - y0).

End PIL.

(** What the code obtains from its collaborators: the network, the
    clock, the AnyBlok configuration, the [slugify] and [random]
    libraries, the image codecs, and whether the operating system lets a
    file operation through.  [http_get] is [requests.get(url).content],
    which [create] calls; [urlopen] is [urlopen(url).read()], which
    [get_source_bytes] calls: two libraries, asked at two moments, that
    need not answer alike.  [can_write] says whether the system takes
    the bytes written to a file, [can_close] whether it closes the
    descriptor without error, and [buffer_size] is the size of the
    buffer that [open] gives a binary file. *)
Record Ext : Type := mkExt {
  http_get : string -> option bytes;
  can_open : string -> bool;
  can_write : string -> bool;
  can_makedirs : string -> bool;
  today : Z * Z * Z;
  source_path_prefix : option string;
  media_path_prefix : option string;
  slugify : string -> string;
  randint : Z -> Z -> Z;
  pil_open : bytes -> option PIL.Image;
  pil_save : PIL.Image -> json -> option bytes;
  pil_thumbnail : PIL.Image -> Z * Z -> PIL.Image;
  exiv2_modify : bytes -> dict -> dict -> option bytes;
  urlopen : string -> option bytes;
  can_close : string -> bool;
  buffer_size : string -> N
}.

(** The same collaborators with another answer to [write]. *)
Definition with_can_write (x : Ext) (f : string -> bool) : Ext :=
  mkExt (http_get x) (can_open x) f (can_makedirs x) (today x)
        (source_path_prefix x) (media_path_prefix x) (slugify x) (randint x)
        (pil_open x) (pil_save x) (pil_thumbnail x) (exiv2_modify x)
        (urlopen x) (can_close x) (buffer_size x).

(** The class-level constants of a (polymorphic) media class.
    [SOURCE_DISK_STORAGE_PATTERN] is [None] when the class does not
    declare the attribute, as is the case of every class of the
    package itself. *)
Record MediaClass : Type := mkClass {
  MEDIA_TYPE : option string;
  SOURCE_STORAGE_STRATEGY : option string;
  SOURCE_DISK_STORAGE_PATTERN : option string;
  PROCESS_PARAMS : json;
  DESTINATION_PATH_PATTERN : string;
  URL_PATTERN : string
}.

Definition set_disk (w : World) (d : list (string * bytes)) : World :=
  mkWorld d (dirs w) (mediafiles w) (media_table w) (tag_table w)
          (media_tag_table w) (next_uuid w).

Definition set_dirs (w : World) (d : list string) : World :=
  mkWorld (disk w) d (mediafiles w) (media_table w) (tag_table w)
          (media_tag_table w) (next_uuid w).

Definition set_mediafiles (w : World) (m : list (string * MediaFile)) : World :=
  mkWorld (disk w) (dirs w) m (media_table w) (tag_table w)
          (media_tag_table w) (next_uuid w).

Definition set_media_tag_table (w : World) (t : list (nat * nat)) : World :=
  mkWorld (disk w) (dirs w) (mediafiles w) (media_table w) (tag_table w)
          t (next_uuid w).

Definition set_state (e : MediaRec) (s : string) : MediaRec :=
  mkMedia (uuid e) (media_type e) (file e) (file_path e) (file_url e)
          (filesize e) (filename e) (meta e) (properties e) s.

Definition set_properties (e : MediaRec) (p : json) : MediaRec :=
  mkMedia (uuid e) (media_type e) (file e) (file_path e) (file_url e)
          (filesize e) (filename e) (meta e) p (state e).

Definition set_file (e : MediaRec) (b : option bytes) : MediaRec :=
  mkMedia (uuid e) (media_type e) b (file_path e) (file_url e)
          (filesize e) (filename e) (meta e) (properties e) (state e).

(** *** File-system primitives *)

Definition str_in (s : string) (l : list string) : bool :=
  existsb (String.eqb s) l.

(** [os.path.exists]. *)
Definition os_path_exists (w : World) (p : string) : bool :=
  (str_in p (dirs w)
   || match dict_get p (disk w) with Some _ => true | None => false end)%bool.

(** A directory and the directories above it. *)
Fixpoint ancestors (fuel : nat) (d : string) : list string :=
  match fuel with
  | O => []
  | S n =>
      match d with
      | EmptyString => []
      | _ =>
          let h := fst (os_path_split d) in
          d :: (if String.eqb h d then [] else ancestors n h)
      end
  end.

(** [os.makedirs(d)]: creates [d] and the missing directories above
    it; [OSError] when [d] is empty or exists, or when the system
    refuses. *)
Definition os_makedirs (x : Ext) (w : World) (d : string) : result unit * World :=
  if (truthy_str d && negb (os_path_exists w d) && can_makedirs x d)%bool
  then (Ok tt,
        set_dirs w (dirs w ++
          filter (fun a => negb (str_in a (dirs w)))
                 (ancestors (S (String.length d)) d)))
  else (Raise (OSError d), w).

(** [open(p, "rb").read()]. *)
Definition read_file (w : World) (p : string) : result bytes :=
  match dict_get p (disk w) with
  | Some b => Ok b
  | None => Raise (OSError p)
  end.

(** [open(p, "wb")], which creates or truncates the file: it needs a
    file name, an existing directory to hold it (the current one when
    the path has no directory part) and the system's permission. *)
Definition open_wb (x : Ext) (w : World) (p : string) : result unit * World :=
  let '(d, f) := os_path_split p in
  if (truthy_str f && (negb (truthy_str d) || str_in d (dirs w))
      && negb (str_in p (dirs w)) && can_open x p)%bool
  then (Ok tt, set_disk w (dict_set p [] (disk w)))
  else (Raise (OSError p), w).

(** The bytes [body] handed to the system for a file opened by
    [open_wb]: taken whole, or refused with [OSError]. *)
Definition write_file (x : Ext) (w : World) (p : string) (body : bytes)
  : result unit * World :=
  if can_write x p
  then (Ok tt, set_disk w (dict_set p body (disk w)))
  else (Raise (OSError p), w).

(** [destf.write(body)] on the buffered writer that [open(p, "wb")]
    returns, its buffer still empty.  A body that fits the buffer is
    copied there and nothing reaches the system, so that nothing can
    fail; a longer one is handed to the system at once.  The result
    comes with the bytes that wait in the buffer. *)
Definition buffered_write (x : Ext) (w : World) (p : string) (body : bytes)
  : result unit * bytes * World :=
  if N.leb (N.of_nat (List.length body)) (buffer_size x p)
  then (Ok tt, body, w)
  else let '(r, w) := write_file x w p body in (r, [], w).

(** Closing the writer, as the end of a [with] block does: the bytes
    that wait in the buffer are handed to the system, then the
    descriptor is closed; the error of either step is raised. *)
Definition close_file (x : Ext) (w : World) (p : string) (pending : bytes)
  : result unit * World :=
  let '(flushed, w) :=
    match pending with
    | [] => (Ok tt, w)
    | _ :: _ => write_file x w p pending
    end in
  match flushed with
  | Raise e => (Raise e, w)
  | Ok _ => if can_close x p then (Ok tt, w) else (Raise (OSError p), w)
  end.

(* ================================================================== *)
(** ** media/models.py: [Model.Media] *)

Module Media.

Definition SOURCE_STORAGE_STRATEGIES : list string := ["database"; "disk"].

(** [Media.get_source_storage_strategy]: [None] (after a warning) when
    the strategy is unset or unknown. *)
Definition get_source_storage_strategy (cls : MediaClass) : option string :=
  match SOURCE_STORAGE_STRATEGY cls with
  | None => None
  | Some s =>
      if negb (truthy_str s) then None
      else if negb (str_in s SOURCE_STORAGE_STRATEGIES) then None
      else Some s
  end.

(** [Media.slugify_filename]. *)
Definition slugify_filename (x : Ext) (filename : string)
  (random_suffix : bool) : string :=
  let '(filename_split, extension) := pop_last (split "." (lower filename)) in
  let name := join filename_split in
  if random_suffix
  then slugify x name ++ "-" ++ str_of_Z (randint x 100000 999999)
       ++ "." ++ extension
  else slugify x name ++ "." ++ extension.

(** The keyword arguments of [create], and the [data] dictionary copied
    from them: the keys the method reads, plus [meta] as an instance of
    the columns handed through to [insert] untouched. *)
Record Kwargs : Type := mkKw {
  kw_file : option bytes;
  kw_file_url : option string;
  kw_file_path : option string;
  kw_filename : option string;
  kw_meta : option json
}.

Definition set_kw_file (d : Kwargs) (f : option bytes) : Kwargs :=
  mkKw f (kw_file_url d) (kw_file_path d) (kw_filename d) (kw_meta d).

Definition set_kw_file_path (d : Kwargs) (p : option string) : Kwargs :=
  mkKw (kw_file d) (kw_file_url d) p (kw_filename d) (kw_meta d).

Definition set_kw_filename (d : Kwargs) (n : option string) : Kwargs :=
  mkKw (kw_file d) (kw_file_url d) (kw_file_path d) n (kw_meta d).

(** [list(filter(None, [_file, _file_url, _file_path]))], each element
    kept as the name of the field it comes from. *)
Definition file_fields (kwargs : Kwargs) : list string :=
  (if truthy_opt truthy_bytes (kw_file kwargs) then ["file"] else [])
  ++ (if truthy_opt truthy_str (kw_file_url kwargs) then ["file_url"] else [])
  ++ (if truthy_opt truthy_str (kw_file_path kwargs) then ["file_path"] else []).

Definition msg_media_type : string :=
  "registry.Media.MEDIA_TYPE is not set.registry.Media is the base polymorphic media model. You should implement your own, or use one of Media.Image, Media.Audio, Media.Video.".

Definition msg_no_source : string :=
  "No 'file', 'file_url' nor 'filepath' field set, can't create media object".

Definition msg_too_much : string :=
  "Too much source file fields set, can't create media object".

Definition msg_no_pattern : string :=
  "You must set a SOURCE_DISK_STORAGE_PATTERN property on your polymorphic class.".

Definition msg_no_prefix : string :=
  "You must set a source_path_prefix Anyblok configuration entry.".

Definition msg_no_filename : string :=
  "No 'filename', can't create media object".

(** The string, or the bytes, held by a column known to be set. *)
Definition opt_str (o : option string) : string :=
  match o with Some s => s | None => "" end.

Definition opt_bytes (o : option bytes) : bytes :=
  match o with Some b => b | None => [] end.

(** [storage_strategy == s]. *)
Definition strategy_is (storage_strategy : option string) (s : string) : bool :=
  match storage_strategy with
  | Some s' => String.eqb s' s
  | None => false
  end.

(** [cls.insert] of the entity store: the row gets a fresh uuid, the
    polymorphic identity of the class as [media_type], the defaults of
    the columns that [data] leaves out ([draft] is the default state of
    the workflow) and is appended to the table.  The store is taken to
    accept the row; the defaults of [meta] and [properties] are taken
    as empty dictionaries of the row's own. *)
Definition insert (cls : MediaClass) (w : World) (data : Kwargs)
  : result MediaRec * World :=
  let rec :=
    mkMedia (next_uuid w)
            (match MEDIA_TYPE cls with Some t => t | None => "" end)
            (kw_file data) (kw_file_path data) (kw_file_url data)
            None (kw_filename data)
            (match kw_meta data with Some m => m | None => JDict [] end)
            (JDict []) "draft" in
  (Ok rec,
   mkWorld (disk w) (dirs w) (mediafiles w) ((media_table w ++ [rec])%list)
           (tag_table w) (media_tag_table w) (S (next_uuid w))).

(** [create], lines 233-251: a remote or local source is loaded into
    [data["file"]] and names the file when no [filename] was given. *)
Definition create_load (x : Ext) (w : World) (data : Kwargs) : result Kwargs :=
  let _file_url := kw_file_url data in
  let _file_path := kw_file_path data in
  let fill_filename (d : Kwargs) (filename : string) :=
    if negb (truthy_opt truthy_str (kw_filename d))
    then set_kw_filename d (Some filename) else d in
  if truthy_opt truthy_str _file_url then
    (* download remote file data *)
    match http_get x (opt_str _file_url) with
    | None => Raise (RequestError (opt_str _file_url))
    | Some content =>
        let filename := snd (os_path_split (opt_str _file_url)) in
        Ok (fill_filename (set_kw_file data (Some content)) filename)
    end
  else if truthy_opt truthy_str _file_path then
    (* read local file *)
    bind (read_file w (opt_str _file_path)) (fun body =>
    let filename := snd (os_path_split (opt_str _file_path)) in
    Ok (fill_filename (set_kw_file data (Some body)) filename))
  else Ok data.

(** [create], lines 257-328: the [disk] strategy.  [body] is the popped
    [data["file"]]. *)
Definition create_on_disk (cls : MediaClass) (x : Ext) (w : World)
  (data : Kwargs) (body : bytes) : result Kwargs * World :=
  let data := set_kw_file data None in
  let '(year, month, day) := today x in
  match SOURCE_DISK_STORAGE_PATTERN cls with
  | None => (Raise (AttributeError "SOURCE_DISK_STORAGE_PATTERN"), w)
  | Some source_path_pattern =>
    if negb (truthy_str source_path_pattern)
    then (Raise (ConfigurationException msg_no_pattern), w)
    else
    match source_path_prefix x with
    | None => (Raise (ConfigurationException msg_no_prefix), w)
    | Some prefix =>
      if negb (truthy_str prefix)
      then (Raise (ConfigurationException msg_no_prefix), w)
      else
      match kw_filename data with
      | None => (Raise (Exception msg_no_filename), w)
      | Some fname =>
        if negb (truthy_str fname)
        then (Raise (Exception msg_no_filename), w)
        else
        let data := set_kw_filename data (Some (slugify_filename x fname false)) in
        match split "." (slugify_filename x fname false) with
        | [filename; extension] =>
          match format source_path_pattern
                  [("source_path_prefix", prefix);
                   ("year", str_of_Z year);
                   ("month", str_of_Z month);
                   ("day", str_of_Z day);
                   ("filename", filename);
                   ("extension", extension)] with
          | Raise e => (Raise e, w)
          | Ok source_path =>
            let '(destination_dir, destination_filename) :=
              os_path_split source_path in
            (* a failed makedirs is logged and otherwise ignored *)
            let w :=
              if negb (os_path_exists w destination_dir)
              then snd (os_makedirs x w destination_dir)
              else w in
            match open_wb x w source_path with
            | (Raise e, w) => (Raise e, w)
            | (Ok _, w) =>
              let '(written, pending, w) :=
                buffered_write x w source_path body in
              let data :=
                match written with
                | Raise _ =>
                    (* except OSError: logged, [file_path] is not set *)
                    data
                | Ok _ => set_kw_file_path data (Some source_path)
                end in
              (* the end of the [with] block, outside of the [try] *)
              match close_file x w source_path pending with
              | (Raise e, w) => (Raise e, w)
              | (Ok _, w) => (Ok data, w)
              end
            end
          end
        | _ => (Raise (ValueError "unpack"), w)
        end
      end
    end
  end.

(** [Media.create]. *)
Definition create (cls : MediaClass) (x : Ext) (w : World) (kwargs : Kwargs)
  : result MediaRec * World :=
  let data := kwargs in
  let storage_strategy := get_source_storage_strategy cls in
  let _file_fields := file_fields data in
  if negb (truthy_opt truthy_str (MEDIA_TYPE cls))
  then (Raise (Exception msg_media_type), w)
  else if Nat.eqb (List.length _file_fields) 0
  then (Raise (Exception msg_no_source), w)
  else if Nat.ltb 1 (List.length _file_fields)
  then (Raise (Exception msg_too_much), w)
  else
    match create_load x w data with
    | Raise e => (Raise e, w)
    | Ok data =>
      let placed :=
        if truthy_opt truthy_bytes (kw_file data) then
          if strategy_is storage_strategy "database" then
            (* nothing to do here, stream will be saved on 'file' field *)
            (Ok data, w)
          else if strategy_is storage_strategy "disk" then
            create_on_disk cls x w data (opt_bytes (kw_file data))
          else (Ok data, w)
        else (Ok data, w) in
      match placed with
      | (Raise e, w) => (Raise e, w)
      | (Ok data, w) => insert cls w data
      end
    end.

(** [Media.get_source_file_field]. *)
Definition get_source_file_field (self : MediaRec) : option string :=
  if truthy_opt truthy_bytes (file self) then Some "file"
  else if truthy_opt truthy_str (file_url self) then Some "file_url"
  else if truthy_opt truthy_str (file_path self) then Some "file_path"
  else None.

(** [Media.get_source_bytes]: the content of the [io.BytesIO] stream
    it returns, or [None]. *)
Definition get_source_bytes (x : Ext) (w : World) (self : MediaRec)
  : result (option bytes) :=
  match get_source_file_field self with
  | None => Ok None
  | Some field =>
      if String.eqb field "file" then Ok (Some (opt_bytes (file self)))
      else if String.eqb field "file_path" then
        bind (read_file w (opt_str (file_path self))) (fun bits =>
        Ok (Some bits))
      else if String.eqb field "file_url" then
        match urlopen x (opt_str (file_url self)) with
        | Some bits => Ok (Some bits)
        | None => Raise (RequestError (opt_str (file_url self)))
        end
      else Ok None
  end.

End Media.

(* ================================================================== *)
(** ** image/models.py: [Model.Media.Image] *)

Module Image.

Definition exif_keys : list (string * string) :=
  [("datetime", "Exif.Image.DateTimeOriginal")].

Definition xmp_keys : list (string * string) :=
  [("title", "Xmp.xmp.Title");
   ("description", "Xmp.xmp.Description");
   ("creator", "Xmp.xmp.Creator");
   ("contributor", "Xmp.xmp.Contributor");
   ("publisher", "Xmp.xmp.Publisher");
   ("rights", "Xmp.xmp.Rights")].

(** The loop of [set_file_metadata] for one of the two key tables. *)
Definition select_meta (keys : list (string * string)) (metadata : dict) : dict :=
  fold_left
    (fun acc kv =>
       match dict_get (fst kv) keys with
       | Some k' => dict_set k' (snd kv) acc
       | None => acc
       end)
    metadata [].

(** [Image.set_file_metadata]: the tagged bytes, or [None]. *)
Definition set_file_metadata (x : Ext) (stream : option bytes)
  (metadata : json) : result (option bytes) :=
  match stream with
  | None => Ok None
  | Some b =>
      if negb (truthy_json metadata) then Ok None
      else
        match metadata with
        | JDict m =>
            let exif_meta := select_meta exif_keys m in
            let xmp_meta := select_meta xmp_keys m in
            match exif_meta, xmp_meta with
            | [], [] => Ok None
            | _, _ =>
                match exiv2_modify x b exif_meta xmp_meta with
                | Some tagged => Ok (Some tagged)
                | None => Raise (CodecError "pyexiv2")
                end
            end
        | _ => Raise (AttributeError "items")
        end
  end.

(** [Image.get_image_object_from_byte]. *)
Definition get_image_object_from_byte (x : Ext) (w : World) (self : MediaRec)
  : result PIL.Image :=
  bind (Media.get_source_bytes x w self) (fun stream =>
  match stream with
  | None => Raise (AttributeError "read")
  | Some b =>
      match pil_open x b with
      | Some img => Ok img
      | None => Raise (CodecError "cannot identify image file")
      end
  end).

(** [str(self)], [Media.__str__]. *)
Definition str_of_media (self : MediaRec) : string :=
  media_type self ++ " " ++ str_of_json
    (match filename self with Some f => JStr f | None => JNull end)
  ++ " " ++ state self.

Definition str_of_opt (o : option string) : string :=
  match o with Some s => s | None => "None" end.

(** The body of the loop of [format_transformation_properties]: the
    descriptor of the rendition [name]. *)
Definition format_item (cls : MediaClass) (x : Ext) (self : MediaRec)
  (name : string) (item : json) : result json :=
  match item with
  | JDict item =>
      let size := json_get "size" item in
      let width := json_get "width" item in
      let height := json_get "height" item in
      let extension := json_get "extension" item in
      let file_format := json_get "file_format" item in
      let transformation_mode := json_get "transformation_mode" item in
      let '(year, month, day) := today x in
      bind (format (DESTINATION_PATH_PATTERN cls)
              [("self", str_of_media self);
               ("name", name);
               ("media_path_prefix", str_of_opt (media_path_prefix x));
               ("filename", str_of_opt (filename self));
               ("size", str_of_json size);
               ("extension", str_of_json extension);
               ("year", str_of_Z year);
               ("month", str_of_Z month);
               ("day", str_of_Z day)]) (fun path =>
      bind (format (URL_PATTERN cls)
              [("self", str_of_media self);
               ("name", name);
               ("filename", str_of_opt (filename self));
               ("width", str_of_json width);
               ("height", str_of_json height);
               ("extension", str_of_json extension);
               ("year", str_of_Z year);
               ("month", str_of_Z month);
               ("day", str_of_Z day)]) (fun url =>
      Ok (JDict [("width", width);
                 ("height", height);
                 ("path", JStr path);
                 ("url", JStr url);
                 ("file_format", file_format);
                 ("transformation_mode", transformation_mode);
                 ("extension", extension)])))
  | _ => Raise (AttributeError "get")
  end.

Fixpoint format_items (cls : MediaClass) (x : Ext) (self : MediaRec)
  (params : dict) (properties : dict) : result dict :=
  match params with
  | [] => Ok properties
  | (name, item) :: rest =>
      bind (format_item cls x self name item) (fun r =>
      format_items cls x self rest (dict_set name r properties))
  end.

(** [Image.format_transformation_properties]: [None] after a warning
    when a constant is missing, else the dictionary of renditions. *)
Definition format_transformation_properties (cls : MediaClass) (x : Ext)
  (self : MediaRec) : result json :=
  if negb (truthy_json (PROCESS_PARAMS cls)) then Ok JNull
  else if negb (truthy_str (DESTINATION_PATH_PATTERN cls)) then Ok JNull
  else if negb (truthy_str (URL_PATTERN cls)) then Ok JNull
  else
    match PROCESS_PARAMS cls with
    | JDict params =>
        bind (format_items cls x self params []) (fun properties =>
        Ok (JDict properties))
    | _ => Raise (AttributeError "items")
    end.

(** [int(a / b)]: true division, then truncation towards zero.  The
    quotient is the exact one as long as the operands stay below 2^53,
    where the float division cannot step over an integer. *)
Definition int_truediv (a b : Z) : result Z :=
  if (b =? 0)%Z then Raise ZeroDivisionError else Ok (Z.quot a b).

(** [Image.__resize]. *)
Definition __resize (img : PIL.Image) (size : Z * Z) : result PIL.Image :=
  PIL.resize img size.

(** The size [Image.__crop] hands to [img.resize]. *)
Definition crop_scale (img : PIL.Image) (size : Z * Z) : result (Z * Z) :=
  let width := fst size in
  let height := snd size in
  if (PIL.width img >=? PIL.height img)%Z then
    bind (int_truediv (height * PIL.width img) (PIL.height img)) (fun w' =>
    Ok (w', height))
  else
    bind (int_truediv (width * PIL.width img) (PIL.height img)) (fun h' =>
    Ok (width, h')).

(** The box [Image.__crop] hands to [generated.crop]. *)
Definition crop_box (img generated : PIL.Image) (size : Z * Z)
  : Z * Z * Z * Z :=
  let width := fst size in
  let height := snd size in
  if (PIL.width img >=? PIL.height img)%Z then
    (Z.quot (PIL.width generated - width) 2, 0,
     Z.quot (PIL.width generated + width) 2, height)%Z
  else
    (0, Z.quot (PIL.height generated - height) 2,
     width, Z.quot (PIL.height generated + height) 2)%Z.

(** [Image.__crop]. *)
Definition __crop (img : PIL.Image) (size : Z * Z) : result PIL.Image :=
  bind (crop_scale img size) (fun scaled =>
  bind (PIL.resize img scaled) (fun generated =>
  Ok (PIL.crop generated (crop_box img generated size)))).

(** [Image.__preserve]. *)
Definition __preserve (x : Ext) (img : PIL.Image) (size : Z * Z)
  : result PIL.Image :=
  Ok (pil_thumbnail x img size).

(** [(width, height)] as the transformations need them: numbers. *)
Definition size_of (width height : json) : result (Z * Z) :=
  match width, height with
  | JNum w, JNum h => Ok (w, h)
  | _, _ => Raise (TypeError "size")
  end.

Definition is_mode (transformation_mode : json) (m : string) : bool :=
  match transformation_mode with
  | JStr s => String.eqb s m
  | _ => false
  end.

(** [Image.generate]: transforms the source image and saves it on
    disk. *)
Definition generate (x : Ext) (w : World) (self : MediaRec) (name : string)
  (params : json) : result unit * World :=
  match get_image_object_from_byte x w self with
  | Raise e => (Raise e, w)
  | Ok source =>
    match params with
    | JDict params =>
      let file_format := json_get "file_format" params in
      let path := json_get "path" params in
      let transformation_mode := json_get "transformation_mode" params in
      let width := json_get "width" params in
      let height := json_get "height" params in
      if negb (is_mode transformation_mode "resize"
               || is_mode transformation_mode "preserve"
               || is_mode transformation_mode "crop")
      then (Ok tt, w)
      else
      match path with
      | JStr path =>
        (* Ensure path prefix exists *)
        let '(prefix, filename) := os_path_split path in
        match (if negb (os_path_exists w prefix)
               then os_makedirs x w prefix else (Ok tt, w)) with
        | (Raise e, w) => (Raise e, w)
        | (Ok _, w) =>
          match bind (size_of width height) (fun size =>
                  if is_mode transformation_mode "resize"
                  then __resize source size
                  else if is_mode transformation_mode "preserve"
                  then __preserve x source size
                  else __crop source size) with
          | Raise e => (Raise e, w)
          | Ok generated =>
            match pil_save x generated file_format with
            | None => (Raise (CodecError "save"), w)
            | Some imageBytes =>
              match (if truthy_json (meta self)
                     then set_file_metadata x (Some imageBytes) (meta self)
                     else Ok None) with
              | Raise e => (Raise e, w)
              | Ok stream_meta =>
                let body :=
                  if truthy_opt truthy_bytes stream_meta
                  then Media.opt_bytes stream_meta else imageBytes in
                match open_wb x w path with
                | (Raise e, w) => (Raise e, w)
                | (Ok _, w) => write_file x w path body
                end
              end
            end
          end
        end
      | _ => (Raise (TypeError "path"), w)
      end
    | _ => (Raise (AttributeError "get"), w)
    end
  end.

(** The loop of [process] over [self.properties.items()]. *)
Fixpoint generate_all (x : Ext) (w : World) (self : MediaRec) (items : dict)
  : result unit * World :=
  match items with
  | [] => (Ok tt, w)
  | (k, v) :: rest =>
      match generate x w self k v with
      | (Raise e, w) => (Raise e, w)
      | (Ok _, w) => generate_all x w self rest
      end
  end.

(** [Image.process]: what the call returns ([self], or [None] after a
    warning), the entity as the call leaves it, and the world. *)
Definition process (cls : MediaClass) (x : Ext) (w : World) (self : MediaRec)
  : result (option MediaRec) * MediaRec * World :=
  if negb (truthy_str (DESTINATION_PATH_PATTERN cls)) then (Ok None, self, w)
  else if negb (truthy_json (PROCESS_PARAMS cls)) then (Ok None, self, w)
  else
    match format_transformation_properties cls x self with
    | Raise e => (Raise e, self, w)
    | Ok props =>
        let self := set_properties self props in
        match props with
        | JDict items =>
            match generate_all x w self items with
            | (Raise e, w) => (Raise e, self, w)
            | (Ok _, w) => (Ok (Some self), self, w)
            end
        | _ => (Raise (AttributeError "items"), self, w)
        end
    end.

End Image.

(* ================================================================== *)
(** ** The tag tables of the entity store *)

(** Every call is taken to act on the tables at once, which is what
    [insert] and [query] do in a session that flushes when they are
    called.  What a query sees of the rows inserted during the flush
    that runs an update hook, and when that flush writes a cleared
    collection, belong to the session of the ORM and are not
    modelled. *)
Module Store.

(** [t.name]. *)
Definition name (t : Tag) : string := tag_name t.

(** [Tag.query().filter_by(name=n).first()], in table order. *)
Definition tag_first_by_name (w : World) (n : string) : option Tag :=
  find (fun t => String.eqb (tag_name t) n) (tag_table w).

(** [Tag.query().filter_by(media_type=mt).all()]. *)
Definition tags_by_media_type (w : World) (mt : string) : list Tag :=
  filter (fun t => String.eqb (tag_media_type t) mt) (tag_table w).

(** [Tag.insert(name=n, media_type=mt)]. *)
Definition tag_insert (w : World) (n mt : string) : Tag * World :=
  let t := mkTag (next_uuid w) n mt in
  (t, mkWorld (disk w) (dirs w) (mediafiles w) (media_table w)
              (tag_table w ++ [t]) (media_tag_table w) (S (next_uuid w))).

Definition pair_eqb (a b : nat * nat) : bool :=
  (Nat.eqb (fst a) (fst b) && Nat.eqb (snd a) (snd b))%bool.

(** [MediaTag.insert(media_uuid=m, tag_uuid=t)]: both columns form the
    primary key of the join table. *)
Definition media_tag_insert (w : World) (m t : nat) : result unit * World :=
  if existsb (pair_eqb (m, t)) (media_tag_table w)
  then (Raise (IntegrityError "join_media_and_tag_for_tags"), w)
  else (Ok tt, set_media_tag_table w (media_tag_table w ++ [(m, t)])).

(** [self.tags.clear()]. *)
Definition tags_clear (w : World) (self : MediaRec) : World :=
  set_media_tag_table w
    (filter (fun r => negb (Nat.eqb (fst r) (uuid self))) (media_tag_table w)).

(** [self.tags]: the rows of [Tag] joined to the entity. *)
Definition tags (w : World) (self : MediaRec) : list Tag :=
  filter (fun t => existsb (pair_eqb (uuid self, tag_uuid t)) (media_tag_table w))
         (tag_table w).

End Store.

(* ================================================================== *)
(** ** audio/models.py: [Model.Media.Audio] *)

Module Audio.

(** [Audio.process]. *)
Definition process (self : MediaRec) : MediaRec :=
  if negb (String.eqb (state self) "published")
  then set_state self "published"
  else self.

(** The look-up of a tag by its name and, when there is none, the
    insertion of the cleaned name as an audio tag: the body shared by
    the loops of [write_metadata_to_source] and
    [before_update_orm_event]. *)
Definition existing_tag (w : World) (tag_name : string) : Tag * World :=
  match Store.tag_first_by_name w tag_name with
  | Some t => (t, w)
  | None => Store.tag_insert w (lower (strip tag_name)) "audio"
  end.

(** [for tag_name in v] of [write_metadata_to_source]. *)
Fixpoint genres_loop (w : World) (v : list json) (genres_tags : list json)
  : result (list json) * World :=
  match v with
  | [] => (Ok genres_tags, w)
  | JStr tag_name :: rest =>
      let '(t, w) := existing_tag w tag_name in
      genres_loop w rest (genres_tags ++ [JStr (Store.name t)])
  | _ :: _ => (Raise (TypeError "tag name"), w)
  end.

(** [for field, v in self.meta.items()] of [write_metadata_to_source];
    [f] holds the attributes set on the [MediaFile] so far. *)
Fixpoint fields_loop (w : World) (self : MediaRec) (f : dict) (items : dict)
  : result dict * World :=
  match items with
  | [] => (Ok f, w)
  | (field, v) :: rest =>
      let step :=
        if String.eqb field "genres" then
          match v with
          | JList (t :: l) =>
              let w := Store.tags_clear w self in
              match genres_loop w (t :: l) [] with
              | (Ok genres_tags, w) => (Ok (JList genres_tags), w)
              | (Raise e, w) => (Raise e, w)
              end
          | _ => (Ok v, w)
          end
        else (Ok v, w) in
      match step with
      | (Raise e, w) => (Raise e, w)
      | (Ok v, w) => fields_loop w self (dict_set field v f) rest
      end
  end.

(** [Audio.write_metadata_to_source].  [f.save()] is taken to store
    the attributes as they were set on [f]; what the codec keeps of
    them in the bytes of the file is not modelled. *)
Definition write_metadata_to_source (w : World) (self : MediaRec)
  : result unit * MediaRec * World :=
  let path := Media.opt_str (file_path self) in
  match dict_get path (mediafiles w) with
  | None => (Raise (OSError path), self, w)
  | Some f =>
      match properties self with
      | JDict p =>
          let self := set_properties self
                        (JDict (dict_set "duration" (mf_length f) p)) in
          match meta self with
          | JDict items =>
              match fields_loop w self (mf_fields f) items with
              | (Raise e, w) => (Raise e, self, w)
              | (Ok fields, w) =>
                  (Ok tt, self,
                   set_mediafiles w
                     (dict_set path (mkMediaFile fields (mf_length f))
                               (mediafiles w)))
              end
          | _ => (Raise (AttributeError "items"), self, w)
          end
      | _ => (Raise (TypeError "item assignment"), self, w)
      end
  end.

Fixpoint chars (s : string) : list json :=
  match s with
  | EmptyString => []
  | String c r => JStr (String c "") :: chars r
  end.

(** What [for tag_name in target.meta["genres"]] iterates over. *)
Definition iter (j : json) : result (list json) :=
  match j with
  | JList l => Ok l
  | JStr s => Ok (chars s)
  | JDict d => Ok (map (fun kv => JStr (fst kv)) d)
  | _ => Raise (TypeError "object is not iterable")
  end.

(** [for tag_name in target.meta["genres"]] of
    [before_update_orm_event]. *)
Fixpoint associate_loop (w : World) (target : MediaRec) (l : list json)
  : result unit * World :=
  match l with
  | [] => (Ok tt, w)
  | JStr tag_name :: rest =>
      let '(t, w) := existing_tag w tag_name in
      match Store.media_tag_insert w (uuid target) (tag_uuid t) with
      | (Raise e, w) => (Raise e, w)
      | (Ok _, w) => associate_loop w target rest
      end
  | _ :: _ => (Raise (TypeError "tag name"), w)
  end.

(** [Audio.before_update_orm_event] ([edit_date] is not among the
    modelled columns). *)
Definition before_update_orm_event (w : World) (target : MediaRec)
  : result unit * MediaRec * World :=
  if truthy_json (meta target) then
    match write_metadata_to_source w target with
    | (Raise e, target, w) => (Raise e, target, w)
    | (Ok _, target, w) =>
        match meta target with
        | JDict m =>
            match dict_get "genres" m with
            | Some genres =>
                match iter genres with
                | Raise e => (Raise e, target, w)
                | Ok l =>
                    match associate_loop w target l with
                    | (r, w) => (r, target, w)
                    end
                end
            | None => (Ok tt, target, w)
            end
        | _ => (Raise (AttributeError "keys"), target, w)
        end
    end
  else (Ok tt, target, w).

End Audio.

(* ================================================================== *)
(** ** video/models.py: [Model.Media.Video] *)

Module Video.

(** [Video.process]. *)
Definition process (self : MediaRec) : MediaRec :=
  if negb (String.eqb (state self) "published")
  then set_state self "published"
  else self.

(** [for tag in v] of [write_metadata_to_source]. *)
Fixpoint genres_loop (w : World) (tag_list : list string) (v : list json)
  (genres_tags : list json) : result (list json) * World :=
  match v with
  | [] => (Ok genres_tags, w)
  | JStr tag :: rest =>
      if negb (str_in tag tag_list) then
        (* Cleanup new tag *)
        let tag := lower (strip tag) in
        let w := if truthy_str tag
                 then snd (Store.tag_insert w tag "video") else w in
        genres_loop w tag_list rest (genres_tags ++ [JStr tag])
      else genres_loop w tag_list rest (genres_tags ++ [JStr tag])
  | _ :: _ => (Raise (AttributeError "strip"), w)
  end.

(** [for field, v in self.meta.items()] of [write_metadata_to_source]. *)
Fixpoint fields_loop (w : World) (tag_list : list string) (f : dict)
  (items : dict) : result dict * World :=
  match items with
  | [] => (Ok f, w)
  | (field, v) :: rest =>
      let step :=
        if String.eqb field "genres" then
          match v with
          | JList l =>
              match genres_loop w tag_list l [] with
              | (Ok genres_tags, w) => (Ok (JList genres_tags), w)
              | (Raise e, w) => (Raise e, w)
              end
          | _ => (Ok v, w)
          end
        else (Ok v, w) in
      match step with
      | (Raise e, w) => (Raise e, w)
      | (Ok v, w) => fields_loop w tag_list (dict_set field v f) rest
      end
  end.

(** [Video.write_metadata_to_source], with [f.save()] as for audio
    files. *)
Definition write_metadata_to_source (w : World) (self : MediaRec)
  : result unit * World :=
  let path := Media.opt_str (file_path self) in
  match dict_get path (mediafiles w) with
  | None => (Raise (OSError path), w)
  | Some f =>
      let tag_list := map tag_name (Store.tags_by_media_type w "video") in
      match meta self with
      | JDict items =>
          match fields_loop w tag_list (mf_fields f) items with
          | (Raise e, w) => (Raise e, w)
          | (Ok fields, w) =>
              (Ok tt,
               set_mediafiles w
                 (dict_set path (mkMediaFile fields (mf_length f))
                           (mediafiles w)))
          end
      | _ => (Raise (AttributeError "items"), w)
      end
  end.

(** [Video.before_update_orm_event]. *)
Definition before_update_orm_event (w : World) (target : MediaRec)
  : result unit * World :=
  if truthy_json (meta target) then write_metadata_to_source w target
  else (Ok tt, w).

End Video.

(* ================================================================== *)
(** ** Concrete classes, collaborators and worlds *)

Module Examples.

(** Image classes as the tests of the package declare them. *)
Definition ImageDisk : MediaClass :=
  mkClass (Some "image") (Some "disk")
          (Some "{source_path_prefix}/img/{year}/{filename}.{extension}")
          (JList []) "" "".

Definition ImageDatabase : MediaClass :=
  mkClass (Some "image") (Some "database") None (JList []) "" "".

(** The abstract base class [Model.Media]. *)
Definition BaseMedia : MediaClass :=
  mkClass None None None (JList []) "" "".

(** An image class with one rendition. *)
Definition ImageThumb : MediaClass :=
  mkClass (Some "image") (Some "database") None
          (JDict [("thumb",
                   JDict [("size", JStr "100x100");
                          ("width", JNum 100);
                          ("height", JNum 100);
                          ("extension", JStr "jpg");
                          ("file_format", JStr "JPEG");
                          ("transformation_mode", JStr "crop")])])
          "{media_path_prefix}/{name}/{filename}.{extension}"
          "/media/{name}/{filename}.{extension}".

Definition jpeg : bytes := [Byte.xff; Byte.xd8; Byte.xff; Byte.xe0].
Definition jpeg2 : bytes := [Byte.xff; Byte.xd8; Byte.xff; Byte.xe1].
Definition encoded : bytes := [Byte.xff; Byte.xd8].

(** Collaborators that answer: one URL is served, to either library,
    every file operation is let through, names are already slugs, and
    files are buffered by [io.DEFAULT_BUFFER_SIZE]. *)
Definition ext : Ext :=
  mkExt (fun u => if String.eqb u "http://x/sample.jpg"
                  then Some jpeg else None)
        (fun _ => true) (fun _ => true) (fun _ => true)
        (2021, 3, 7)%Z (Some "/tmp/m") (Some "/tmp/r")
        (fun s => s) (fun a _ => a)
        (fun _ => Some (PIL.mkImg 800 600))
        (fun _ _ => Some encoded)
        (fun _ _ => PIL.mkImg 100 75)
        (fun b _ _ => Some b)
        (fun u => if String.eqb u "http://x/sample.jpg"
                  then Some jpeg else None)
        (fun _ => true) (fun _ => 8192%N).

(** The same collaborators with a full disk: every [write] fails. *)
Definition ext_full_disk : Ext := with_can_write ext (fun _ => false).

Definition world : World :=
  mkWorld [("/tmp/in/a.jpg", jpeg2)] ["/"; "/tmp"; "/tmp/in"] [] [] [] [] 0.

Definition kw_none : Media.Kwargs :=
  Media.mkKw None None None (Some "a.jpg") None.

Definition kw_inline : Media.Kwargs :=
  Media.mkKw (Some jpeg) None None (Some "a.jpg") None.

Definition kw_url : Media.Kwargs :=
  Media.mkKw None (Some "http://x/sample.jpg") None None None.

Definition kw_path : Media.Kwargs :=
  Media.mkKw None None (Some "/tmp/in/a.jpg") (Some "sample.jpg") None.

Definition kw_inline_and_url : Media.Kwargs :=
  Media.mkKw (Some jpeg) (Some "http://x/sample.jpg") None None None.



(** A record with a disk path and a URL. *)
Definition media_path_and_url : MediaRec :=
  mkMedia 0 "image" None (Some "/tmp/in/a.jpg") (Some "http://x/sample.jpg")
          None (Some "a.jpg") (JDict []) (JDict []) "draft".

Definition media_published : MediaRec :=
  mkMedia 3 "audio" None (Some "/tmp/in/a.mp3") None None (Some "a.mp3")
          (JDict [("title", JStr "t")]) (JDict []) "published".

(** A draft image stored in the database. *)
Definition image_draft : MediaRec :=
  mkMedia 0 "image" (Some jpeg) None None None (Some "a")
          (JDict []) (JDict []) "draft".

(** An audio file on disk and the world that holds it. *)
Definition audio_world (tags : list Tag) (next : nat) : World :=
  mkWorld [] ["/"; "/tmp"]
          [("/tmp/a.mp3", mkMediaFile [("title", JStr "t")] (JNum 180))]
          [] tags [] next.

Definition tag_rock_image : Tag := mkTag 7 "rock" "image".

Definition landscape : PIL.Image := PIL.mkImg 800 600.
Definition portrait : PIL.Image := PIL.mkImg 300 600.

Definition audio_with_genres (genres : list json) : MediaRec :=
  mkMedia 0 "audio" None (Some "/tmp/a.mp3") None None (Some "a.mp3")
          (JDict [("genres", JList genres)]) (JDict []) "draft".

Definition video_with_genres (genres : list json) : MediaRec :=
  mkMedia 0 "video" None (Some "/tmp/a.mp3") None None (Some "a.mp4")
          (JDict [("genres", JList genres)]) (JDict []) "draft".

End Examples.

(* ================================================================== *)
(** ** More of media/models.py *)

Module MediaModel.

(** One state of [Media.get_workflow_definition]: whether it is the
    default, and its [allowed_to] list (empty when the key is
    missing). *)
Record WorkflowState : Type := mkState {
  ws_default : bool;
  ws_allowed_to : list string
}.

(** [Media.get_workflow_definition]. *)
Definition get_workflow_definition : list (string * WorkflowState) :=
  [("draft", mkState true ["published"; "archived"]);
   ("published", mkState false ["draft"; "archived"]);
   ("archived", mkState false [])].

(** Whether the definition lists [target] among the states allowed
    from [source]. *)
Definition allowed_to (source target : string) : bool :=
  match dict_get source get_workflow_definition with
  | Some s => str_in target (ws_allowed_to s)
  | None => false
  end.

(** [s.startswith(p)]. *)
Fixpoint startswith (p s : string) : bool :=
  match p, s with
  | EmptyString, _ => true
  | String a p', String b s' => (Ascii.eqb a b && startswith p' s')%bool
  | String _ _, EmptyString => false
  end.

(** [Media.query()], without further criteria, as the list of the rows
    it ranges over: all the rows of the table for [Model.Media], the
    rows of the media type of the class for a class registered below
    it.  [registry_name] is [cls.__registry_name__]. *)
Definition query (registry_name : string) (cls : MediaClass) (w : World)
  : list MediaRec :=
  if startswith "Model.Media." registry_name
  then filter (fun r => String.eqb (media_type r)
                          (Media.opt_str (MEDIA_TYPE cls)))
              (media_table w)
  else media_table w.

(** [Media.__repr__]. *)
Definition repr (self : MediaRec) : string :=
  "<Media: " ++ Image.str_of_media self ++ ">".

(** The class with [name] assigned to [SOURCE_STORAGE_STRATEGY]. *)
Definition with_strategy (cls : MediaClass) (name : option string)
  : MediaClass :=
  mkClass (MEDIA_TYPE cls) name (SOURCE_DISK_STORAGE_PATTERN cls)
          (PROCESS_PARAMS cls) (DESTINATION_PATH_PATTERN cls)
          (URL_PATTERN cls).

(** Whether a character occurs in a string. *)
Fixpoint has_char (c : ascii) (s : string) : bool :=
  match s with
  | EmptyString => false
  | String d r => (Ascii.eqb d c || has_char c r)%bool
  end.

End MediaModel.

(* ================================================================== *)
(** ** More of image/models.py: reading and rewriting metadata *)

Module ImageMetadata.

(** What [pyexiv2.ImageData] reads from the bytes of an image: the
    EXIF and the XMP dictionaries, or nothing when the bytes are not
    an image it can open. *)
Record Exiv2 : Type := mkExiv2 {
  read : bytes -> option (dict * dict)
}.

Definition xmp_keys : list string :=
  ["title"; "description"; "creator"; "contributor"; "publisher";
   "rights"; "date"].

Definition exif_keys : list (string * string) :=
  [("datetime", "Exif.Image.DateTimeOriginal");
   ("creator", "Exif.Image.Artist");
   ("rights", "Exif.Image.Copyright")].

(** [for k in xmp_keys] of [get_file_metadata]. *)
Fixpoint xmp_loop (xmp_data : dict) (keys : list string) (meta : dict) : dict :=
  match keys with
  | [] => meta
  | k :: rest =>
      let v := json_get ("Xmp.dc." ++ k) xmp_data in
      xmp_loop xmp_data rest (if truthy_json v then dict_set k v meta else meta)
  end.

(** [for key in exif_keys: for k, v in key.items()] of
    [get_file_metadata]. *)
Fixpoint exif_loop (exif_data : dict) (keys : list (string * string))
  (meta : dict) : dict :=
  match keys with
  | [] => meta
  | (k, v) :: rest =>
      let val := json_get v exif_data in
      exif_loop exif_data rest
        (if truthy_json val then dict_set k val meta else meta)
  end.

(** [Image.get_file_metadata]: [None] (after a warning) without a
    stream. *)
Definition get_file_metadata (r : Exiv2) (stream : option bytes)
  : result (option dict) :=
  match stream with
  | None => Ok None
  | Some b =>
      match read r b with
      | None => Raise (CodecError "pyexiv2")
      | Some (exif_data, xmp_data) =>
          let meta := [] in
          let meta :=
            match xmp_data with
            | [] => meta
            | _ => xmp_loop xmp_data xmp_keys meta
            end in
          let meta :=
            match exif_data with
            | [] => meta
            | _ => exif_loop exif_data exif_keys meta
            end in
          Ok (Some meta)
      end
  end.

(** What holds of an entry of the dictionary that [get_file_metadata]
    builds: a key of its own tables, a value that is not empty. *)
Definition entry_ok (kv : string * json) : Prop :=
  In (fst kv) (xmp_keys ++ map fst exif_keys)
  /\ truthy_json (snd kv) = true.

(** [Image.grab_metadata_from_source]. *)
Definition grab_metadata_from_source (r : Exiv2) (x : Ext) (w : World)
  (self : MediaRec) : result (option dict) :=
  bind (Media.get_source_bytes x w self) (fun stream =>
  get_file_metadata r stream).

(** [open(p, "rb+")]: the file must exist; it is not truncated. *)
Definition open_rb_plus (x : Ext) (w : World) (p : string) : result bytes :=
  match dict_get p (disk w) with
  | Some old => if can_open x p then Ok old else Raise (OSError p)
  | None => Raise (OSError p)
  end.

(** [f.seek(0); f.write(body)] on a file opened by [open_rb_plus] with
    content [old]: the bytes of [old] beyond the length of [body]
    stay. *)
Definition write_at_start (x : Ext) (w : World) (p : string)
  (old body : bytes) : result unit * World :=
  if can_write x p
  then (Ok tt,
        set_disk w (dict_set p (body ++ skipn (List.length body) old)%list
                             (disk w)))
  else (Raise (OSError p), w).

(** [Image.before_update_orm_event] ([edit_date] is not among the
    modelled columns).  [set_file_metadata] returns [bytes], on which
    the [database] branch calls [get_bytes()]; the bytes that
    [pyexiv2.ImageData(tagged_stream).get_bytes()] gives back in the
    [disk] branch are taken to be [tagged_stream]. *)
Definition before_update_orm_event (cls : MediaClass) (x : Ext) (w : World)
  (target : MediaRec) : result unit * World :=
  let storage_strategy := Media.get_source_storage_strategy cls in
  match Media.get_source_bytes x w target with
  | Raise e => (Raise e, w)
  | Ok stream =>
    match Image.set_file_metadata x stream (meta target) with
    | Raise e => (Raise e, w)
    | Ok tagged_stream =>
      let field := Media.get_source_file_field target in
      if (Media.strategy_is storage_strategy "disk"
          && Media.strategy_is field "file_path")%bool then
        match open_rb_plus x w (Media.opt_str (file_path target)) with
        | Raise e => (Raise e, w)
        | Ok old =>
            if truthy_opt truthy_bytes tagged_stream
            then write_at_start x w (Media.opt_str (file_path target)) old
                                (Media.opt_bytes tagged_stream)
            else (Ok tt, w)
        end
      else if (Media.strategy_is storage_strategy "database"
               && Media.strategy_is field "file")%bool then
        if truthy_opt truthy_bytes tagged_stream
        then (Raise (AttributeError "get_bytes"), w)
        else (Ok tt, w)
      else (Ok tt, w)
    end
  end.

End ImageMetadata.

(* ================================================================== *)
(** ** More of audio/models.py: reading the metadata of the file *)

Module AudioMetadata.

Definition WANTED : list string :=
  ["title"; "artist"; "album"; "genres"; "year"; "country"; "bpm";
   "lyricist"; "composer"; "arranger"; "label"; "lyrics"; "comments"].

(** [[t.strip().lower() for t in filter(None, v.split(","))]]. *)
Definition tokens (v : string) : list string :=
  map (fun t => lower (strip t)) (filter truthy_str (split "," v)).

(** The loops over a list of genres: the tokens of every item; an item
    that is not a string has no [split]. *)
Fixpoint flatten (v : list json) : result (list string) :=
  match v with
  | [] => Ok []
  | JStr item :: rest =>
      bind (flatten rest) (fun res => Ok (tokens item ++ res)%list)
  | _ :: _ => Raise (AttributeError "split")
  end.

(** The clean-up of the value of [genres]. *)
Definition genres (v : json) : result json :=
  match v with
  | JStr s => Ok (JList (map JStr (tokens s)))
  | JList l => bind (flatten l) (fun res => Ok (JList (map JStr res)))
  | _ => Ok v
  end.

(** [for field in self.WANTED] of [grab_metadata_from_source];
    [getattr(f, field)] is [None] for a tag the file does not hold. *)
Fixpoint wanted_loop (f : MediaFile) (wanted : list string) (meta : dict)
  : result dict :=
  match wanted with
  | [] => Ok meta
  | field :: rest =>
      let v := json_get field (mf_fields f) in
      if truthy_json v then
        bind (if String.eqb field "genres" then genres v else Ok v) (fun v =>
        wanted_loop f rest (dict_set field v meta))
      else wanted_loop f rest meta
  end.

(** [Audio.grab_metadata_from_source]. *)
Definition grab_metadata_from_source (w : World) (self : MediaRec)
  : result dict :=
  let path := Media.opt_str (file_path self) in
  match dict_get path (mediafiles w) with
  | None => Raise (OSError path)
  | Some f => wanted_loop f WANTED []
  end.

End AudioMetadata.

(* ================================================================== *)
(** ** Well-formed stores and dictionaries *)

Module WellFormed.

(** The keys of a dictionary. *)
Definition keys {V} (d : list (string * V)) : list string := map fst d.



End WellFormed.

(* ================================================================== *)
(** ** Further concrete classes and worlds *)

Module Examples2.

(** An image class whose strategy is not one of the known two. *)
Definition ImageUnknownStrategy : MediaClass :=
  mkClass (Some "image") (Some "s3") None (JList []) "" "".

Definition kw_named : Media.Kwargs :=
  Media.mkKw (Some Examples.jpeg) None None (Some "My.File.JPG") None.

Definition media_archived : MediaRec :=
  mkMedia 4 "audio" None (Some "/tmp/in/a.mp3") None None (Some "a.mp3")
          (JDict []) (JDict []) "archived".

End Examples2.

(* ================================================================== *)
(** ** Sizes for the crop transform *)

Module CropSize.

(** The extent that is left of a target extent [T] when the box is cut
    around a scaled image of extent [g]: [T] itself, or one less when
    the scaled image is short of the target by an odd amount. *)
Definition cut (T g : Z) : Z :=
  if ((T <=? g) || Z.even (T - g))%Z%bool then T else (T - 1)%Z.

End CropSize.

(* ================================================================== *)
(** ** Further image classes and entities *)

Module Examples3.

(** [ImageThumb] without a URL pattern. *)
Definition ImageNoUrl : MediaClass :=
  mkClass (Some "image") (Some "database") None
          (PROCESS_PARAMS Examples.ImageThumb)
          (DESTINATION_PATH_PATTERN Examples.ImageThumb) "".

(** [ImageThumb] with the width in the destination path. *)
Definition ImageWidthInPath : MediaClass :=
  mkClass (Some "image") (Some "database") None
          (PROCESS_PARAMS Examples.ImageThumb)
          "/tmp/r/{width}/{filename}.{extension}"
          (URL_PATTERN Examples.ImageThumb).

(** The variables the docstring of [format_transformation_properties]
    offers to both patterns and that the destination pattern is not
    given. *)
Definition not_for_destination : list string :=
  ["width"; "height"; "file_format"; "transformation_mode"].

Definition thumb_params : dict :=
  [("thumb",
    JDict [("size", JStr "100x100"); ("width", JNum 100);
           ("height", JNum 100); ("extension", JStr "jpg");
           ("file_format", JStr "JPEG");
           ("transformation_mode", JStr "crop")])].

Definition thumb_descriptor : dict :=
  [("width", JNum 100); ("height", JNum 100);
   ("path", JStr "/tmp/r/thumb/a.jpg"); ("url", JStr "/media/thumb/a.jpg");
   ("file_format", JStr "JPEG"); ("transformation_mode", JStr "crop");
   ("extension", JStr "jpg")].

Definition image_with_title : MediaRec :=
  mkMedia 0 "image" (Some Examples.jpeg) None None None (Some "a")
          (JDict [("title", JStr "t")]) (JDict []) "draft".

Definition image_on_disk : MediaRec :=
  mkMedia 0 "image" None (Some "/tmp/in/a.jpg") None None (Some "a.jpg")
          (JDict [("title", JStr "t")]) (JDict []) "draft".

Definition image_from_url : MediaRec :=
  mkMedia 0 "image" None None (Some "http://x/sample.jpg") None
          (Some "sample.jpg") (JDict [("title", JStr "t")]) (JDict []) "draft".

(** Collaborators whose tagging returns two bytes. *)
Definition ext_short_tag : Ext :=
  mkExt (http_get Examples.ext) (fun _ => true) (fun _ => true)
        (fun _ => true) (2021, 3, 7)%Z (Some "/tmp/m") (Some "/tmp/r")
        (fun s => s) (fun a _ => a)
        (fun _ => Some (PIL.mkImg 800 600))
        (fun _ _ => Some Examples.encoded)
        (fun _ _ => PIL.mkImg 100 75)
        (fun _ _ _ => Some Examples.encoded)
        (urlopen Examples.ext) (fun _ => true) (fun _ => 8192%N).

Definition exiv2 : ImageMetadata.Exiv2 :=
  ImageMetadata.mkExiv2
    (fun _ => Some ([("Exif.Image.Artist", JStr "a")],
                    [("Xmp.dc.creator", JStr "c");
                     ("Xmp.dc.title", JStr "t")])).

End Examples3.

(* ================================================================== *)
(** ** Reading a rendition descriptor *)

Module Rendition.

(** [params.get("path")] of a descriptor, [None] for anything that is
    not a dictionary. *)
Definition path_of (params : json) : json :=
  match params with
  | JDict d => json_get "path" d
  | _ => JNull
  end.

(** The renditions held by [properties]. *)
Definition renditions (properties : json) : dict :=
  match properties with
  | JDict p => p
  | _ => []
  end.

End Rendition.

(* ================================================================== *)
(** ** What the video hook writes, in closed form *)

Module VideoGenres.

(** The list [genres_tags] that [write_metadata_to_source] hands to
    [setattr] as the genres: a token that names a video tag as it is,
    any other token cleaned. *)
Definition written (tag_list : list string) (tokens : list string)
  : list string :=
  map (fun t => if str_in t tag_list then t else lower (strip t)) tokens.

(** The names of the tags it inserts, in order: the cleaned form of
    every token that names no video tag, unless it is empty. *)
Definition inserted (tag_list : list string) (tokens : list string)
  : list string :=
  filter truthy_str
    (map (fun t => lower (strip t))
         (filter (fun t => negb (str_in t tag_list)) tokens)).

End VideoGenres.

(* ================================================================== *)
(** ** Further audio files and entities *)

Module Examples4.

Definition file_with_genres (v : json) : MediaFile :=
  mkMediaFile [("title", JStr "t"); ("genres", v)] (JNum 180).

Definition world_with_genres (v : json) : World :=
  mkWorld [] ["/"; "/tmp"] [("/tmp/a.mp3", file_with_genres v)] [] [] [] 1.

Definition audio_plain : MediaRec :=
  mkMedia 0 "audio" None (Some "/tmp/a.mp3") None None (Some "a.mp3")
          (JDict []) (JDict []) "draft".

Definition video_world : World :=
  mkWorld [] ["/"; "/tmp"]
          [("/tmp/a.mp3", mkMediaFile [("title", JStr "t")] (JNum 180))]
          [] [mkTag 1 "rock" "video"; mkTag 2 "pop" "audio"] [] 3.

End Examples4.

(* ================================================================== *)
(** ** Collaborators without a network *)

Module Examples5.

(** The collaborators of [Examples.ext] when no URL can be opened. *)
Definition ext_offline : Ext :=
  mkExt (http_get Examples.ext) (can_open Examples.ext)
        (can_write Examples.ext) (can_makedirs Examples.ext)
        (today Examples.ext) (source_path_prefix Examples.ext)
        (media_path_prefix Examples.ext) (slugify Examples.ext)
        (randint Examples.ext) (pil_open Examples.ext)
        (pil_save Examples.ext) (pil_thumbnail Examples.ext)
        (exiv2_modify Examples.ext)
        (fun _ => None) (can_close Examples.ext) (buffer_size Examples.ext).

End Examples5.

(* ================================================================== *)
(** ** The specification's wording, for comparison with the code *)

Module Spec.

(** The source fields of a record that hold something, in the order
    [file], [file_path], [file_url]. *)
Definition populated (e : MediaRec) : list string :=
  (if truthy_opt truthy_bytes (file e) then ["file"] else [])
  ++ (if truthy_opt truthy_str (file_path e) then ["file_path"] else [])
  ++ (if truthy_opt truthy_str (file_url e) then ["file_url"] else []).

(** The field a storage strategy selects. *)
Definition strategy_field (strategy : string) : string :=
  if String.eqb strategy "database" then "file" else "file_path".

(** What [create] leaves populated, by strategy and by the field the
    request supplied: the field of the strategy and the reference the
    request came with. *)
Definition populated_after_create (strategy source : string) : list string :=
  (if String.eqb strategy "database" then ["file"] else [])
  ++ (if (String.eqb strategy "disk" || String.eqb source "file_path")%bool
      then ["file_path"] else [])
  ++ (if String.eqb source "file_url" then ["file_url"] else []).

(** The resolution of the source of a record in the order the
    specification gives: [file], then [file_path], then [file_url]. *)
Definition source_bytes_file_path_first (x : Ext) (w : World) (e : MediaRec)
  : result (option bytes) :=
  if truthy_opt truthy_bytes (file e) then Ok (Some (Media.opt_bytes (file e)))
  else if truthy_opt truthy_str (file_path e) then
    bind (read_file w (Media.opt_str (file_path e))) (fun b => Ok (Some b))
  else if truthy_opt truthy_str (file_url e) then
    match urlopen x (Media.opt_str (file_url e)) with
    | Some b => Ok (Some b)
    | None => Raise (RequestError (Media.opt_str (file_url e)))
    end
  else Ok None.

(** The size an aspect-preserving scaling step of the crop transform
    asks for, as the specification words it: by the target height for
    an image at least as wide as tall, by the target width otherwise. *)
Definition crop_scale_preserving (img : PIL.Image) (size : Z * Z) : Z * Z :=
  let '(W, H) := size in
  if (PIL.width img >=? PIL.height img)%Z
  then (Z.quot (H * PIL.width img) (PIL.height img), H)
  else (W, Z.quot (W * PIL.height img) (PIL.width img)).

End Spec.

(* ================================================================== *)
(** ** Properties of [Model.Media] *)

Module MediaProps.

Lemma set_state_same (e : MediaRec) : set_state e (state e) = e.
Proof. destruct e; reflexivity. Qed.

Lemma process_eq (self : MediaRec) :
  Audio.process self = set_state self "published".
Proof.
  unfold Audio.process.
  destruct (String.eqb (state self) "published") eqn:E; simpl.
  - apply String.eqb_eq in E. rewrite <- E. symmetry. apply set_state_same.
  - reflexivity.
Qed.

(** C10.  [process] of an audio or of a video entity leaves the entity
    in state [published] and changes no other column, nor the tags
    joined to the entity in any world; on an entity that is already
    published it changes nothing at all. *)
Theorem process_only_publishes (self : MediaRec) :
  Video.process self = Audio.process self
  /\ state (Audio.process self) = "published"
  /\ uuid (Audio.process self) = uuid self
  /\ media_type (Audio.process self) = media_type self
  /\ file (Audio.process self) = file self
  /\ file_path (Audio.process self) = file_path self
  /\ file_url (Audio.process self) = file_url self
  /\ filesize (Audio.process self) = filesize self
  /\ filename (Audio.process self) = filename self
  /\ meta (Audio.process self) = meta self
  /\ properties (Audio.process self) = properties self
  /\ (forall w, Store.tags w (Audio.process self) = Store.tags w self)
  /\ (state self = "published" -> Audio.process self = self).
Proof.
  split; [reflexivity|].
  rewrite process_eq.
  repeat split; try reflexivity.
  intros H. rewrite <- H. apply set_state_same.
Qed.

Lemma process_published_witness :
  state Examples.media_published = "published"
  /\ Audio.process Examples.media_published = Examples.media_published.
Proof.
  split; [reflexivity|].
  apply (process_only_publishes Examples.media_published). reflexivity.
Defined.

(** C9.  A request in which none, or more than one, of [file],
    [file_url] and [file_path] holds something makes [create] raise
    and leaves the world, hence the table of media, as it was: on a
    class with a [MEDIA_TYPE] the exception is the one about the
    missing source (no field) or about too many sources (two or three
    fields); on a class without, the check of [MEDIA_TYPE] comes
    first and raises its own [Exception]. *)
Theorem create_rejects_source_count (cls : MediaClass) (x : Ext) (w : World)
  (kwargs : Media.Kwargs) :
  List.length (Media.file_fields kwargs) <> 1 ->
  (exists msg, Media.create cls x w kwargs = (Raise (Exception msg), w))
  /\ (truthy_opt truthy_str (MEDIA_TYPE cls) = true ->
      Media.create cls x w kwargs =
        (Raise (Exception
                  (if Nat.eqb (List.length (Media.file_fields kwargs)) 0
                   then Media.msg_no_source else Media.msg_too_much)), w)).
Proof.
  intros Hn. unfold Media.create.
  destruct (truthy_opt truthy_str (MEDIA_TYPE cls)); simpl.
  - destruct (List.length (Media.file_fields kwargs)) as [|[|n]]; simpl.
    + split; [eexists; reflexivity | reflexivity].
    + congruence.
    + split; [eexists; reflexivity | reflexivity].
  - split; [eexists; reflexivity | discriminate].
Qed.

Lemma create_rejects_source_count_witness :
  Media.create Examples.ImageDisk Examples.ext Examples.world
               Examples.kw_inline_and_url
  = (Raise (Exception Media.msg_too_much), Examples.world).
Proof.
  apply (create_rejects_source_count Examples.ImageDisk Examples.ext
           Examples.world Examples.kw_inline_and_url).
  - vm_compute. discriminate.
  - reflexivity.
Defined.

(** The eight combinations of the three source fields: only those with
    exactly one field pass the checks on the number of sources. *)
Lemma file_fields_length (kwargs : Media.Kwargs) :
  List.length (Media.file_fields kwargs) =
    (Nat.b2n (truthy_opt truthy_bytes (Media.kw_file kwargs))
     + Nat.b2n (truthy_opt truthy_str (Media.kw_file_url kwargs))
     + Nat.b2n (truthy_opt truthy_str (Media.kw_file_path kwargs)))%nat.
Proof.
  unfold Media.file_fields.
  destruct (truthy_opt truthy_bytes (Media.kw_file kwargs)),
           (truthy_opt truthy_str (Media.kw_file_url kwargs)),
           (truthy_opt truthy_str (Media.kw_file_path kwargs)); reflexivity.
Qed.

(** C8, as amended.  [get_source_bytes] serves the first populated
    field in the order [file], [file_url], [file_path]: the bytes of
    the column, else the body fetched from the URL, else the content
    of the file at the path; it returns [None], without raising, when
    no field is populated. *)
Theorem get_source_bytes_precedence (x : Ext) (w : World) (self : MediaRec) :
  Media.get_source_bytes x w self =
    if truthy_opt truthy_bytes (file self)
    then Ok (Some (Media.opt_bytes (file self)))
    else if truthy_opt truthy_str (file_url self) then
      match urlopen x (Media.opt_str (file_url self)) with
      | Some b => Ok (Some b)
      | None => Raise (RequestError (Media.opt_str (file_url self)))
      end
    else if truthy_opt truthy_str (file_path self) then
      bind (read_file w (Media.opt_str (file_path self)))
           (fun b => Ok (Some b))
    else Ok None.
Proof.
  unfold Media.get_source_bytes, Media.get_source_file_field.
  destruct (truthy_opt truthy_bytes (file self)); [reflexivity|].
  destruct (truthy_opt truthy_str (file_url self)); [reflexivity|].
  destruct (truthy_opt truthy_str (file_path self)); reflexivity.
Qed.

(** C8 as stated fails on a record that holds both a path and a URL:
    the code fetches the URL, the stated order reads the file. *)
Lemma get_source_bytes_not_file_path_first :
  Media.get_source_file_field Examples.media_path_and_url = Some "file_url"
  /\ Media.get_source_bytes Examples.ext Examples.world
       Examples.media_path_and_url = Ok (Some Examples.jpeg)
  /\ Spec.source_bytes_file_path_first Examples.ext Examples.world
       Examples.media_path_and_url = Ok (Some Examples.jpeg2)
  /\ Media.get_source_bytes Examples.ext Examples.world
       Examples.media_path_and_url
     <> Spec.source_bytes_file_path_first Examples.ext Examples.world
          Examples.media_path_and_url.
Proof.
  repeat split; try reflexivity.
  vm_compute. discriminate.
Qed.

(** *** What [create] stores *)

Lemma insert_ok (cls : MediaClass) (w : World) (data : Media.Kwargs) :
  exists rec,
    Media.insert cls w data
    = (Ok rec, mkWorld (disk w) (dirs w) (mediafiles w)
                       (media_table w ++ [rec]) (tag_table w)
                       (media_tag_table w) (S (next_uuid w)))
    /\ file rec = Media.kw_file data
    /\ file_path rec = Media.kw_file_path data
    /\ file_url rec = Media.kw_file_url data.
Proof. eexists. repeat split. Qed.

Lemma create_load_keeps (x : Ext) (w : World) (kwargs data : Media.Kwargs) :
  Media.create_load x w kwargs = Ok data ->
  Media.kw_file_url data = Media.kw_file_url kwargs
  /\ Media.kw_file_path data = Media.kw_file_path kwargs
  /\ (truthy_opt truthy_str (Media.kw_file_url kwargs) = false ->
      truthy_opt truthy_str (Media.kw_file_path kwargs) = false ->
      data = kwargs).
Proof.
  unfold Media.create_load. intros H.
  destruct (truthy_opt truthy_str (Media.kw_file_url kwargs)).
  - destruct (http_get x _); [|discriminate].
    injection H as <-.
    destruct (truthy_opt truthy_str (Media.kw_filename _));
      repeat split; discriminate.
  - destruct (truthy_opt truthy_str (Media.kw_file_path kwargs)).
    + destruct (read_file w _); [|discriminate]. simpl in H.
      injection H as <-.
      destruct (truthy_opt truthy_str (Media.kw_filename _));
        repeat split; discriminate.
    + injection H as <-. repeat split.
Qed.

Lemma open_wb_nonempty (x : Ext) (w w' : World) (p : string) (u : unit) :
  open_wb x w p = (Ok u, w') -> truthy_str p = true.
Proof.
  destruct p; [|reflexivity].
  unfold open_wb. simpl. discriminate.
Qed.

Lemma open_wb_tables (x : Ext) (w w' : World) (p : string) (r : result unit) :
  open_wb x w p = (r, w') -> media_table w' = media_table w.
Proof.
  unfold open_wb. destruct (os_path_split p) as [d f].
  destruct (_ && _)%bool; intros H; injection H as _ <-; reflexivity.
Qed.

Lemma write_file_tables (x : Ext) (w w' : World) (p : string) (b : bytes)
  (r : result unit) :
  write_file x w p b = (r, w') -> media_table w' = media_table w.
Proof.
  unfold write_file.
  destruct (can_write x p); intros H; injection H as _ <-; reflexivity.
Qed.

Lemma os_makedirs_tables (x : Ext) (w : World) (d : string) :
  media_table (snd (os_makedirs x w d)) = media_table w.
Proof.
  unfold os_makedirs. destruct (_ && _)%bool; reflexivity.
Qed.

(** The outcomes of the [disk] branch: an exception, with the table of
    media untouched; or the data without [file], with the path that
    was written, or, after a write of a body longer than the buffer
    that the system refused, with the path the request came with. *)
Lemma create_on_disk_cases (cls : MediaClass) (x : Ext) (w : World)
  (data : Media.Kwargs) (body : bytes) :
  media_table (snd (Media.create_on_disk cls x w data body)) = media_table w
  /\ forall d' w', Media.create_on_disk cls x w data body = (Ok d', w') ->
     Media.kw_file d' = None
     /\ Media.kw_file_url d' = Media.kw_file_url data
     /\ ((exists p, Media.kw_file_path d' = Some p /\ truthy_str p = true
                    /\ (body <> [] -> can_write x p = true))
         \/ (Media.kw_file_path d' = Media.kw_file_path data
             /\ exists p, can_write x p = false
                          /\ (buffer_size x p
                              < N.of_nat (List.length body))%N)).
Proof.
  unfold Media.create_on_disk.
  destruct (today x) as [[year month] day].
  destruct (SOURCE_DISK_STORAGE_PATTERN cls) as [pat|];
    [|split; [reflexivity | discriminate]].
  destruct (negb (truthy_str pat)); [split; [reflexivity | discriminate]|].
  destruct (source_path_prefix x) as [prefix|];
    [|split; [reflexivity | discriminate]].
  destruct (negb (truthy_str prefix)); [split; [reflexivity | discriminate]|].
  simpl Media.kw_filename.
  destruct (Media.kw_filename data) as [fname|];
    [|split; [reflexivity | discriminate]].
  destruct (negb (truthy_str fname)); [split; [reflexivity | discriminate]|].
  destruct (split "." (Media.slugify_filename x fname false))
    as [|filename [|extension [|? ?]]];
    try (split; [reflexivity | discriminate]).
  destruct (format pat _) as [source_path|e];
    [|split; [reflexivity | discriminate]].
  destruct (os_path_split source_path) as [destination_dir destination_filename].
  set (w1 := if negb (os_path_exists w destination_dir)
             then snd (os_makedirs x w destination_dir) else w).
  assert (Hw1 : media_table w1 = media_table w).
  { subst w1. destruct (negb _); [apply os_makedirs_tables | reflexivity]. }
  destruct (open_wb x w1 source_path) as [[u|e] w2] eqn:Hopen.
  - pose proof (open_wb_nonempty _ _ _ _ _ Hopen) as Hp.
    pose proof (open_wb_tables _ _ _ _ _ Hopen) as Hw2.
    unfold buffered_write, close_file, write_file.
    destruct (N.leb (N.of_nat (List.length body)) (buffer_size x source_path))
      eqn:Hle.
    + destruct body as [|b0 body].
      * destruct (can_close x source_path);
          (split; [simpl; congruence|]);
          intros d' w' H; [|discriminate].
        injection H as <- <-. repeat split.
        left. exists source_path. repeat split; trivial.
        intros Hb. now elim Hb.
      * destruct (can_write x source_path) eqn:Hcw;
          [destruct (can_close x source_path)|];
          (split; [simpl; congruence|]);
          intros d' w' H; try discriminate.
        injection H as <- <-. repeat split.
        left. exists source_path. repeat split; trivial.
    + apply N.leb_gt in Hle.
      destruct (can_write x source_path) eqn:Hcw;
        destruct (can_close x source_path);
        (split; [simpl; congruence|]);
        intros d' w' H; try discriminate;
        injection H as <- <-; repeat split.
      * left. exists source_path. repeat split; trivial.
      * right. split; [reflexivity|]. exists source_path. now split.
  - pose proof (open_wb_tables _ _ _ _ _ Hopen) as Hw2.
    split; [simpl; congruence | discriminate].
Qed.

Lemma strategy_values (cls : MediaClass) (s : string) :
  Media.get_source_storage_strategy cls = Some s ->
  s = "database" \/ s = "disk".
Proof.
  unfold Media.get_source_storage_strategy.
  destruct (SOURCE_STORAGE_STRATEGY cls) as [s'|]; [|discriminate].
  destruct (negb (truthy_str s')); [discriminate|].
  destruct (negb (str_in s' Media.SOURCE_STORAGE_STRATEGIES)) eqn:E;
    [discriminate|].
  intros H; injection H as <-.
  apply Bool.negb_false_iff in E. unfold str_in in E. simpl in E.
  apply Bool.orb_true_iff in E as [E|E].
  - left. now apply String.eqb_eq.
  - apply Bool.orb_true_iff in E as [E|E]; [|discriminate].
    right. now apply String.eqb_eq.
Qed.

(** The request's own source field, read off [file_fields]. *)
Lemma file_fields_single (kwargs : Media.Kwargs) (source : string) :
  Media.file_fields kwargs = [source] ->
  (truthy_opt truthy_bytes (Media.kw_file kwargs),
   truthy_opt truthy_str (Media.kw_file_url kwargs),
   truthy_opt truthy_str (Media.kw_file_path kwargs), source)
  = (true, false, false, "file")
  \/ (truthy_opt truthy_bytes (Media.kw_file kwargs),
      truthy_opt truthy_str (Media.kw_file_url kwargs),
      truthy_opt truthy_str (Media.kw_file_path kwargs), source)
     = (false, true, false, "file_url")
  \/ (truthy_opt truthy_bytes (Media.kw_file kwargs),
      truthy_opt truthy_str (Media.kw_file_url kwargs),
      truthy_opt truthy_str (Media.kw_file_path kwargs), source)
     = (false, false, true, "file_path").
Proof.
  unfold Media.file_fields.
  destruct (truthy_opt truthy_bytes (Media.kw_file kwargs)),
           (truthy_opt truthy_str (Media.kw_file_url kwargs)),
           (truthy_opt truthy_str (Media.kw_file_path kwargs));
    simpl; intros H; try discriminate; injection H as <-; auto.
Qed.

(** C1, as amended.  After a successful [create] from a request with
    exactly one source field, under a configured strategy, with source
    bytes that are not empty and a disk that takes the write: the
    field of the strategy is populated ([file] for [database],
    [file_path] for [disk], where [file] is then empty); it is the only
    populated field for inline bytes, and for a path under [disk]; a
    request by URL keeps its [file_url] next to it, and a request by
    path under [database] keeps its [file_path]. *)
Theorem create_populates (cls : MediaClass) (x : Ext) (w w' : World)
  (kwargs : Media.Kwargs) (strategy source : string) (rec : MediaRec) :
  Media.create cls x w kwargs = (Ok rec, w') ->
  Media.get_source_storage_strategy cls = Some strategy ->
  Media.file_fields kwargs = [source] ->
  (forall data, Media.create_load x w kwargs = Ok data ->
                truthy_opt truthy_bytes (Media.kw_file data) = true) ->
  (forall p, can_write x p = true) ->
  Spec.populated rec = Spec.populated_after_create strategy source.
Proof.
  intros Hc Hs Hf Hbytes Hwrite.
  unfold Media.create in Hc. rewrite Hs, Hf in Hc. simpl in Hc.
  destruct (negb (truthy_opt truthy_str (MEDIA_TYPE cls))); [discriminate|].
  destruct (Media.create_load x w kwargs) as [data|e] eqn:Hload;
    [|discriminate].
  specialize (Hbytes data eq_refl).
  destruct (create_load_keeps _ _ _ _ Hload) as (Hurl & Hpath & _).
  rewrite Hbytes in Hc.
  pose proof (file_fields_single _ _ Hf) as Hsrc.
  destruct (strategy_values _ _ Hs) as [-> | ->]; simpl in Hc.
  - destruct (insert_ok cls w data) as (r & Hi & Hfile & Hfp & Hfu).
    rewrite Hi in Hc. injection Hc as <- _.
    unfold Spec.populated, Spec.populated_after_create.
    rewrite Hfile, Hfp, Hfu, Hbytes, Hurl, Hpath.
    destruct Hsrc as [H | [H | H]]; injection H as _ -> -> ->; reflexivity.
  - destruct (create_on_disk_cases cls x w data
                (Media.opt_bytes (Media.kw_file data))) as (_ & Hd).
    destruct (Media.create_on_disk cls x w data _) as [[d'|e] w1];
      [|discriminate].
    destruct (Hd d' w1 eq_refl) as (Hnone & Hu & Hp).
    destruct (insert_ok cls w1 d') as (r & Hi & Hfile & Hfp & Hfu).
    rewrite Hi in Hc. injection Hc as <- _.
    unfold Spec.populated, Spec.populated_after_create.
    rewrite Hfile, Hfp, Hfu, Hnone, Hu, Hurl.
    destruct Hp as [(p & -> & Hp & _) | (_ & p & Hp & _)].
    + simpl. rewrite Hp.
      destruct Hsrc as [H | [H | H]]; injection H as _ -> _ ->; reflexivity.
    + rewrite Hwrite in Hp. discriminate.
Qed.

Lemma create_populates_witness :
  match Media.create Examples.ImageDisk Examples.ext Examples.world
                     Examples.kw_url with
  | (Ok rec, _) => Spec.populated rec = ["file_path"; "file_url"]
  | (Raise _, _) => False
  end.
Proof.
  destruct (Media.create Examples.ImageDisk Examples.ext Examples.world
                         Examples.kw_url) as [[rec|e] w'] eqn:E.
  - apply (create_populates Examples.ImageDisk Examples.ext Examples.world w'
             Examples.kw_url "disk" "file_url" rec E).
    + reflexivity.
    + reflexivity.
    + intros data H. vm_compute in H. injection H as <-. reflexivity.
    + reflexivity.
  - vm_compute in E. discriminate.
Defined.

(** C1 as stated fails for a request by URL: under [database] the
    created record holds both the downloaded [file] and the [file_url],
    under [disk] both the written [file_path] and the [file_url]. *)
Lemma create_from_url_keeps_url :
  Media.file_fields Examples.kw_url = ["file_url"]
  /\ Media.get_source_storage_strategy Examples.ImageDatabase = Some "database"
  /\ Media.get_source_storage_strategy Examples.ImageDisk = Some "disk"
  /\ (exists rec w',
        Media.create Examples.ImageDatabase Examples.ext Examples.world
                     Examples.kw_url = (Ok rec, w')
        /\ Spec.populated rec = ["file"; "file_url"]
        /\ Spec.populated rec <> [Spec.strategy_field "database"])
  /\ (exists rec w',
        Media.create Examples.ImageDisk Examples.ext Examples.world
                     Examples.kw_url = (Ok rec, w')
        /\ Spec.populated rec = ["file_path"; "file_url"]
        /\ Spec.populated rec <> [Spec.strategy_field "disk"]).
Proof.
  repeat split; try reflexivity.
  - do 2 eexists. split; [vm_compute; reflexivity|].
    split; [reflexivity | discriminate].
  - do 2 eexists. split; [vm_compute; reflexivity|].
    split; [reflexivity | discriminate].
Qed.

(** *** A write that fails *)



Lemma insert_is_ok (cls : MediaClass) (w : World) (data : Media.Kwargs) :
  is_ok (fst (Media.insert cls w data)) = true.
Proof. reflexivity. Qed.






(** The write of a body that fits the buffer, refused by the system:
    the error comes when the file is closed, and [create] raises it;
    the destination is left empty and no record is inserted. *)
Lemma create_small_body_failed_write :
  (N.of_nat (List.length Examples.jpeg)
   <= buffer_size Examples.ext_full_disk "/tmp/m/img/2021/a.jpg")%N
  /\ exists w',
       Media.create Examples.ImageDisk Examples.ext_full_disk Examples.world
                    Examples.kw_inline
       = (Raise (OSError "/tmp/m/img/2021/a.jpg"), w')
       /\ media_table w' = []
       /\ dict_get "/tmp/m/img/2021/a.jpg" (disk w') = Some [].
Proof.
  split; [vm_compute; discriminate|].
  eexists. split; [vm_compute; reflexivity|].
  split; reflexivity.
Qed.


End MediaProps.

(* ================================================================== *)
(** ** Properties of [Model.Media.Image] *)

Module ImageProps.

(** *** The crop transform *)

(** On an image at least as wide as tall the scaling step is the
    aspect-preserving one: by the target height. *)
Lemma crop_scale_landscape (img : PIL.Image) (size : Z * Z) :
  (PIL.height img <= PIL.width img)%Z ->
  (PIL.height img <> 0)%Z ->
  Image.crop_scale img size = Ok (Spec.crop_scale_preserving img size).
Proof.
  intros Hle Hnz. destruct size as [W H].
  unfold Image.crop_scale, Spec.crop_scale_preserving, Image.int_truediv.
  simpl fst; simpl snd.
  destruct (Z.geb_spec (PIL.width img) (PIL.height img)); [|lia].
  destruct (Z.eqb_spec (PIL.height img) 0); [contradiction|]. reflexivity.
Qed.

(** On an image taller than wide the code multiplies the target width
    by width over height, where preserving the aspect ratio asks for
    height over width. *)
Lemma crop_scale_portrait (img : PIL.Image) (size : Z * Z) :
  (0 <= PIL.width img < PIL.height img)%Z ->
  Image.crop_scale img size
  = Ok (fst size, Z.quot (fst size * PIL.width img) (PIL.height img)).
Proof.
  intros Hlt.
  unfold Image.crop_scale, Image.int_truediv.
  destruct (Z.geb_spec (PIL.width img) (PIL.height img)); [lia|].
  destruct (Z.eqb_spec (PIL.height img) 0); [lia|]. reflexivity.
Qed.

(** C3.  On a portrait source of 300 by 600 and a target of 100 by
    100, the crop transform asks [resize] for 100 by 50 (the target
    width times width over height), where the scaling the claim
    describes gives 100 by 200; the box it then crops reaches 25 rows
    above and below the scaled image. *)
Theorem crop_scale_portrait_evaluated :
  (PIL.width Examples.portrait < PIL.height Examples.portrait)%Z
  /\ Image.crop_scale Examples.portrait (100, 100)%Z = Ok (100, 50)%Z
  /\ Spec.crop_scale_preserving Examples.portrait (100, 100)%Z = (100, 200)%Z
  /\ Image.crop_box Examples.portrait (PIL.mkImg 100 50) (100, 100)%Z
     = (0, -25, 100, 75)%Z
  /\ Image.crop_scale Examples.landscape (100, 100)%Z
     = Ok (Spec.crop_scale_preserving Examples.landscape (100, 100)%Z).
Proof. repeat split. Qed.

(** The width of the box cut out of a scaled image [g] wide: the
    target width when [g] covers it. *)
Lemma centered_box_exact (g W : Z) :
  (0 <= W <= g)%Z -> (Z.quot (g + W) 2 - Z.quot (g - W) 2 = W)%Z.
Proof.
  intros H.
  rewrite !Z.quot_div_nonneg by lia.
  pose proof (Z.div_mod (g + W) 2 ltac:(lia)).
  pose proof (Z.div_mod (g - W) 2 ltac:(lia)).
  pose proof (Z.mod_pos_bound (g + W) 2 ltac:(lia)).
  pose proof (Z.mod_pos_bound (g - W) 2 ltac:(lia)).
  assert ((g + W) mod 2 = (g - W) mod 2)%Z.
  { replace (g + W)%Z with (g - W + W * 2)%Z by lia.
    apply Z.mod_add. lia. }
  lia.
Qed.

(** The crop of an image at least as wide as tall has the size of the
    target when the scaled image covers the target width. *)
Lemma crop_landscape_covering (img : PIL.Image) (W H : Z) :
  (0 < PIL.height img <= PIL.width img)%Z ->
  (0 < H)%Z ->
  (0 <= W <= Z.quot (H * PIL.width img) (PIL.height img))%Z ->
  Image.__crop img (W, H) = Ok (PIL.mkImg W H).
Proof.
  intros Himg HH HW.
  unfold Image.__crop.
  rewrite crop_scale_landscape by lia.
  unfold Spec.crop_scale_preserving.
  destruct (Z.geb_spec (PIL.width img) (PIL.height img)); [|lia].
  set (g := Z.quot (H * PIL.width img) (PIL.height img)) in *.
  assert (Hg : (H <= g)%Z).
  { subst g. apply Z.quot_le_lower_bound; [lia|]. nia. }
  simpl. unfold PIL.resize. simpl fst; simpl snd.
  destruct (Z.ltb_spec g 1); [lia|].
  destruct (Z.ltb_spec H 1); [lia|].
  simpl. unfold Image.crop_box. simpl.
  destruct (Z.geb_spec (PIL.width img) (PIL.height img)); [|lia].
  unfold PIL.crop. f_equal. f_equal; [|lia].
  apply centered_box_exact. lia.
Qed.

(** C4.  A landscape source of 800 by 600 cropped to 300 by 100 comes
    out 299 by 100: the scaled image, 133 wide, does not cover the
    target, and the two halves of the odd difference are truncated
    towards zero on both sides of the box.  On a target that the scaled
    image covers, the result has the size of the target. *)
Theorem crop_landscape_evaluated :
  (PIL.width Examples.landscape >= PIL.height Examples.landscape)%Z
  /\ Image.crop_scale Examples.landscape (300, 100)%Z = Ok (133, 100)%Z
  /\ Image.crop_box Examples.landscape (PIL.mkImg 133 100) (300, 100)%Z
     = (-83, 0, 216, 100)%Z
  /\ Image.__crop Examples.landscape (300, 100)%Z = Ok (PIL.mkImg 299 100)
  /\ Image.__crop Examples.landscape (100, 100)%Z = Ok (PIL.mkImg 100 100)
  /\ Image.__crop (PIL.mkImg 3 4) (4, 4)%Z = Ok (PIL.mkImg 4 3).
Proof. repeat split; vm_compute; trivial; discriminate. Qed.

(** *** [process] *)

(** [Image.process] never assigns [state], whatever it returns. *)
Lemma process_keeps_state (cls : MediaClass) (x : Ext) (w : World)
  (self : MediaRec) :
  state (snd (fst (Image.process cls x w self))) = state self.
Proof.
  unfold Image.process.
  destruct (negb (truthy_str (DESTINATION_PATH_PATTERN cls))); [reflexivity|].
  destruct (negb (truthy_json (PROCESS_PARAMS cls))); [reflexivity|].
  destruct (Image.format_transformation_properties cls x self) as [props|e];
    [|reflexivity].
  destruct props; try reflexivity.
  destruct (Image.generate_all x w _ d) as [[u|e] w']; reflexivity.
Qed.

(** A call that returns the entity has replaced its [properties] by
    the dictionary of renditions computed from the class constants. *)
Lemma process_sets_properties (cls : MediaClass) (x : Ext) (w w' : World)
  (self self' r : MediaRec) :
  Image.process cls x w self = (Ok (Some r), self', w') ->
  r = self'
  /\ Image.format_transformation_properties cls x self = Ok (properties self')
  /\ self' = set_properties self (properties self').
Proof.
  unfold Image.process.
  destruct (negb (truthy_str (DESTINATION_PATH_PATTERN cls))); [discriminate|].
  destruct (negb (truthy_json (PROCESS_PARAMS cls))); [discriminate|].
  destruct (Image.format_transformation_properties cls x self) as [props|e];
    [|discriminate].
  destruct props; try discriminate.
  destruct (Image.generate_all x w _ d) as [[u|e] w1]; [|discriminate].
  intros H. injection H as <- <- _. repeat split.
Qed.

(** C2.  [process] on a draft image with one rendition returns the
    entity with [properties] replaced by the computed renditions and
    the rendition written to disk, and with [state] still [draft]:
    [Image.process] does not publish. *)
Theorem process_leaves_draft :
  exists self' w',
    Image.process Examples.ImageThumb Examples.ext Examples.world
                  Examples.image_draft = (Ok (Some self'), self', w')
    /\ Image.format_transformation_properties Examples.ImageThumb Examples.ext
         Examples.image_draft = Ok (properties self')
    /\ dict_get "/tmp/r/thumb/a.jpg" (disk w') = Some Examples.encoded
    /\ state Examples.image_draft = "draft"
    /\ state self' = "draft"
    /\ state (Audio.process Examples.image_draft) = "published".
Proof.
  do 2 eexists. split; [vm_compute; reflexivity|].
  repeat split.
Qed.

End ImageProps.

(* ================================================================== *)
(** ** Properties of the metadata hooks of [Audio] and [Video] *)

Module HookProps.

(** C6.  With a tag [rock] of media type [image] in the store, the
    update of an audio entity whose genres are [rock] finds that tag
    by its name alone, creates no audio tag and joins the image tag to
    the audio entity.  The update of a video entity with the same
    genres creates the video tag and joins nothing to the entity. *)
Theorem genres_lookup_evaluated :
  (exists e' w',
     Audio.before_update_orm_event
       (Examples.audio_world [Examples.tag_rock_image] 8)
       (Examples.audio_with_genres [JStr "rock"]) = (Ok tt, e', w')
     /\ tag_table w' = [Examples.tag_rock_image]
     /\ Store.tags w' e' = [Examples.tag_rock_image]
     /\ media_type e' = "audio"
     /\ tag_media_type Examples.tag_rock_image = "image")
  /\ (exists w',
        Video.before_update_orm_event
          (Examples.audio_world [Examples.tag_rock_image] 8)
          (Examples.video_with_genres [JStr "rock"]) = (Ok tt, w')
        /\ tag_table w' = [Examples.tag_rock_image; mkTag 8 "rock" "video"]
        /\ Store.tags w' (Examples.video_with_genres [JStr "rock"]) = []).
Proof.
  split.
  - do 2 eexists. split; [vm_compute; reflexivity|]. repeat split.
  - eexists. split; [vm_compute; reflexivity|]. repeat split.
Qed.

End HookProps.

(* ================================================================== *)
(** ** The scenarios of the package's tests, replayed on the model *)

Module Tests.

(** [test_media_storage_strategy]. *)
Example test_media_storage_strategy :
  Media.SOURCE_STORAGE_STRATEGIES = ["database"; "disk"]
  /\ Media.get_source_storage_strategy Examples.BaseMedia = None
  /\ Media.get_source_storage_strategy Examples.ImageDatabase
     = Some "database".
Proof. repeat split. Qed.

(** [test_media_create_fail_without_media_type]. *)
Example test_media_create_fail_without_media_type :
  Media.create Examples.BaseMedia Examples.ext Examples.world
               Examples.kw_inline
  = (Raise (Exception Media.msg_media_type), Examples.world).
Proof. reflexivity. Qed.

(** [test_media_image_file_with_storage_strategy_disk]. *)
Example test_media_image_file_with_storage_strategy_disk :
  exists media w',
    Media.create Examples.ImageDisk Examples.ext Examples.world
                 Examples.kw_inline = (Ok media, w')
    /\ file media = None
    /\ Media.get_source_file_field media = Some "file_path"
    /\ Media.get_source_bytes Examples.ext w' media = Ok (Some Examples.jpeg).
Proof.
  do 2 eexists. split; [vm_compute; reflexivity|]. repeat split.
Qed.

(** [test_media_image_file_path]. *)
Example test_media_image_file_path :
  exists media w',
    Media.create Examples.ImageDisk Examples.ext Examples.world
                 Examples.kw_path = (Ok media, w')
    /\ file_path media = Some "/tmp/m/img/2021/sample.jpg"
    /\ Media.get_source_file_field media = Some "file_path"
    /\ Media.get_source_bytes Examples.ext w' media = Ok (Some Examples.jpeg2).
Proof.
  do 2 eexists. split; [vm_compute; reflexivity|]. repeat split.
Qed.

(** [test_media_image_file_url]: the record keeps its URL, which is the
    source field the accessor reports although a path was written. *)
Example test_media_image_file_url :
  exists media w',
    Media.create Examples.ImageDisk Examples.ext Examples.world
                 Examples.kw_url = (Ok media, w')
    /\ file_url media = Some "http://x/sample.jpg"
    /\ file_path media = Some "/tmp/m/img/2021/sample.jpg"
    /\ Media.get_source_file_field media = Some "file_url"
    /\ Media.get_source_bytes Examples.ext w' media = Ok (Some Examples.jpeg).
Proof.
  do 2 eexists. split; [vm_compute; reflexivity|]. repeat split.
Qed.

Lemma length_append (a b : string) :
  String.length (a ++ b) = (String.length a + String.length b)%nat.
Proof. induction a as [|c a IH]; simpl; [reflexivity | now rewrite IH]. Qed.

(** [test_media_slugify_filename]: the name with a random suffix is
    longer than the name without. *)
Lemma slugify_filename_suffix_longer (x : Ext) (filename : string) :
  (String.length (Media.slugify_filename x filename false)
   < String.length (Media.slugify_filename x filename true))%nat.
Proof.
  unfold Media.slugify_filename.
  destruct (pop_last (split "." (lower filename))) as [filename_split extension].
  rewrite !length_append. simpl. lia.
Qed.

End Tests.

(* ================================================================== *)
(** ** Dictionaries and strings *)

Module Lemmas.

Lemma dict_get_set_same {V} (k : string) (v : V) (d : list (string * V)) :
  dict_get k (dict_set k v d) = Some v.
Proof.
  induction d as [|[k' v'] d IH]; simpl.
  - now rewrite String.eqb_refl.
  - destruct (String.eqb k k') eqn:E; simpl; rewrite ?String.eqb_refl, ?E; auto.
Qed.

Lemma dict_get_set_other {V} (k k' : string) (v : V) (d : list (string * V)) :
  k <> k' -> dict_get k' (dict_set k v d) = dict_get k' d.
Proof.
  intros Hne. induction d as [|[k0 v0] d IH]; simpl.
  - destruct (String.eqb_spec k' k); [congruence | reflexivity].
  - destruct (String.eqb_spec k k0) as [->|]; simpl.
    + destruct (String.eqb_spec k' k0); [congruence | reflexivity].
    + destruct (String.eqb_spec k' k0); [reflexivity | exact IH].
Qed.

Lemma dict_get_none_keys {V} (k : string) (d : list (string * V)) :
  dict_get k d = None <-> ~ In k (map fst d).
Proof.
  induction d as [|[k' v'] d IH]; simpl.
  - tauto.
  - destruct (String.eqb_spec k k') as [->|].
    + split; [discriminate | tauto].
    + rewrite IH. split; [intros H [E|E]; [congruence | tauto] | tauto].
Qed.

Lemma dict_set_fresh {V} (k : string) (v : V) (d : list (string * V)) :
  dict_get k d = None -> dict_set k v d = (d ++ [(k, v)])%list.
Proof.
  induction d as [|[k' v'] d IH]; simpl; [reflexivity|].
  destruct (String.eqb k k'); [discriminate|].
  intros H. now rewrite IH.
Qed.

Lemma dict_set_present {V} (k : string) (v : V) (d : list (string * V)) :
  dict_get k d = Some v -> dict_set k v d = d.
Proof.
  induction d as [|[k' v'] d IH]; simpl; [discriminate|].
  destruct (String.eqb_spec k k') as [->|].
  - intros H; injection H as ->. reflexivity.
  - intros H. now rewrite IH.
Qed.

Lemma dict_set_keys {V} (k : string) (v : V) (d : list (string * V)) :
  map fst (dict_set k v d)
  = if existsb (String.eqb k) (map fst d) then map fst d
    else (map fst d ++ [k])%list.
Proof.
  induction d as [|[k' v'] d IH]; simpl; [reflexivity|].
  destruct (String.eqb_spec k k') as [->|]; simpl; [reflexivity|].
  rewrite IH. destruct (existsb _ _); reflexivity.
Qed.

Lemma append_assoc (a b c : string) : ((a ++ b) ++ c = a ++ (b ++ c))%string.
Proof. induction a as [|x a IH]; simpl; [reflexivity | now rewrite IH]. Qed.

Lemma has_char_append (c : ascii) (a b : string) :
  MediaModel.has_char c (a ++ b)
  = (MediaModel.has_char c a || MediaModel.has_char c b)%bool.
Proof.
  induction a as [|x a IH]; simpl; [reflexivity|].
  rewrite IH. now rewrite Bool.orb_assoc.
Qed.

Lemma has_char_rev_str (c : ascii) (s acc : string) :
  MediaModel.has_char c (rev_str acc s)
  = (MediaModel.has_char c acc || MediaModel.has_char c s)%bool.
Proof.
  revert acc. induction s as [|x s IH]; intros acc; simpl.
  - now rewrite Bool.orb_false_r.
  - rewrite IH. simpl.
    destruct (Ascii.eqb x c), (MediaModel.has_char c acc),
             (MediaModel.has_char c s); reflexivity.
Qed.

Lemma has_char_lstrip (c : ascii) (s : string) :
  MediaModel.has_char c s = false ->
  MediaModel.has_char c (lstrip s) = false.
Proof.
  induction s as [|x s IH]; simpl; [reflexivity|].
  intros H. apply Bool.orb_false_iff in H as [H1 H2].
  destruct (is_space x); [auto | simpl; now rewrite H1, H2].
Qed.

Lemma has_char_strip (c : ascii) (s : string) :
  MediaModel.has_char c s = false ->
  MediaModel.has_char c (strip s) = false.
Proof.
  intros H. unfold strip, rstrip.
  rewrite has_char_rev_str. simpl.
  apply has_char_lstrip. rewrite has_char_rev_str. simpl.
  now apply has_char_lstrip.
Qed.

Lemma lower_ascii_idem (c : ascii) : lower_ascii (lower_ascii c) = lower_ascii c.
Proof. destruct c as [[] [] [] [] [] [] [] []]; reflexivity. Qed.

Lemma lower_idem (s : string) : lower (lower s) = lower s.
Proof.
  induction s as [|c s IH]; simpl; [reflexivity|].
  now rewrite lower_ascii_idem, IH.
Qed.

Lemma lower_ascii_dot (c : ascii) :
  Ascii.eqb (lower_ascii c) "." = Ascii.eqb c ".".
Proof. destruct c as [[] [] [] [] [] [] [] []]; reflexivity. Qed.

Lemma lower_ascii_comma (c : ascii) :
  Ascii.eqb (lower_ascii c) "," = Ascii.eqb c ",".
Proof. destruct c as [[] [] [] [] [] [] [] []]; reflexivity. Qed.

Lemma has_dot_lower (s : string) :
  MediaModel.has_char "." (lower s) = MediaModel.has_char "." s.
Proof.
  induction s as [|c s IH]; simpl; [reflexivity|].
  now rewrite lower_ascii_dot, IH.
Qed.

Lemma has_comma_lower (s : string) :
  MediaModel.has_char "," (lower s) = MediaModel.has_char "," s.
Proof.
  induction s as [|c s IH]; simpl; [reflexivity|].
  now rewrite lower_ascii_comma, IH.
Qed.

Lemma lower_empty (s : string) : lower s = "" <-> s = "".
Proof. destruct s; simpl; split; congruence. Qed.

(** *** [split] *)

Lemma split_not_nil (sep : ascii) (s : string) : split sep s <> [].
Proof.
  destruct s as [|c s]; simpl; [discriminate|].
  destruct (Ascii.eqb c sep); [discriminate|].
  destruct (split sep s); discriminate.
Qed.

Lemma split_no_sep (sep : ascii) (s : string) :
  MediaModel.has_char sep s = false -> split sep s = [s].
Proof.
  induction s as [|c s IH]; simpl; [reflexivity|].
  intros H. apply Bool.orb_false_iff in H as [H1 H2].
  rewrite H1, (IH H2). reflexivity.
Qed.

Lemma split_append_sep (sep : ascii) (a b : string) :
  MediaModel.has_char sep a = false ->
  split sep (a ++ String sep b) = a :: split sep b.
Proof.
  induction a as [|c a IH]; simpl.
  - now rewrite Ascii.eqb_refl.
  - intros H. apply Bool.orb_false_iff in H as [H1 H2].
    rewrite H1, (IH H2). reflexivity.
Qed.

Lemma split_pieces (sep : ascii) (s : string) :
  Forall (fun t => MediaModel.has_char sep t = false) (split sep s).
Proof.
  induction s as [|c s IH]; simpl.
  - repeat constructor.
  - destruct (Ascii.eqb c sep) eqn:E.
    + constructor; [reflexivity | exact IH].
    + destruct (split sep s) as [|w ws].
      * constructor; [simpl; now rewrite E | constructor].
      * inversion IH as [|? ? Hw Hws]; subst.
        constructor; [simpl; now rewrite E, Hw | exact Hws].
Qed.

Lemma pop_last_spec (l : list string) :
  l <> [] -> l = (fst (pop_last l) ++ [snd (pop_last l)])%list.
Proof.
  induction l as [|x l IH]; [congruence|]. intros _.
  destruct l as [|y l]; [reflexivity|].
  change (pop_last (x :: y :: l))
    with (let '(r', z) := pop_last (y :: l) in (x :: r', z)).
  destruct (pop_last (y :: l)) as [r' z] eqn:E. simpl in *.
  f_equal. apply IH. discriminate.
Qed.

Lemma join_pieces (c : ascii) (l : list string) :
  Forall (fun t => MediaModel.has_char c t = false) l ->
  MediaModel.has_char c (join l) = false.
Proof.
  induction 1 as [|t l Ht Hl IH]; simpl; [reflexivity|].
  rewrite has_char_append, Ht. exact IH.
Qed.

End Lemmas.

(* ================================================================== *)
(** ** Further properties of [Model.Media] *)

Module MediaExtra.

(** The case analysis that follows [create_on_disk] down to the
    opening of the destination. *)
Ltac on_disk_chain x cls data :=
  unfold Media.create_on_disk;
  destruct (today x) as [[?year ?month] ?day];
  destruct (SOURCE_DISK_STORAGE_PATTERN cls) as [?pat|]; [|try easy];
  [destruct (negb (truthy_str pat)); [try easy|];
   destruct (source_path_prefix x) as [?prefix|]; [|try easy];
   [destruct (negb (truthy_str prefix)); [try easy|];
    simpl Media.kw_filename;
    destruct (Media.kw_filename data) as [?fname|]; [|try easy];
    [destruct (negb (truthy_str fname)); [try easy|];
     destruct (split "." (Media.slugify_filename x fname false))
       as [|?filename [|?extension [|? ?]]]; try easy;
     [destruct (format pat _) as [?source_path|?e]; [|try easy];
      [destruct (os_path_split source_path)
         as [?destination_dir ?destination_filename]]]]]].

Lemma os_makedirs_frame (x : Ext) (w : World) (d : string) :
  let w' := snd (os_makedirs x w d) in
  disk w' = disk w /\ mediafiles w' = mediafiles w
  /\ media_table w' = media_table w /\ tag_table w' = tag_table w
  /\ media_tag_table w' = media_tag_table w /\ next_uuid w' = next_uuid w.
Proof.
  unfold os_makedirs. destruct (_ && _)%bool; simpl; repeat split.
Qed.

Lemma open_wb_frame (x : Ext) (w w' : World) (p : string) (r : result unit) :
  open_wb x w p = (r, w') ->
  mediafiles w' = mediafiles w
  /\ media_table w' = media_table w /\ tag_table w' = tag_table w
  /\ media_tag_table w' = media_tag_table w /\ next_uuid w' = next_uuid w
  /\ (is_ok r = false -> w' = w).
Proof.
  unfold open_wb. destruct (os_path_split p) as [d f].
  destruct (_ && _)%bool; intros H; injection H as <- <-; simpl;
    repeat split; discriminate.
Qed.

Lemma write_file_frame (x : Ext) (w w' : World) (p : string) (b : bytes)
  (r : result unit) :
  write_file x w p b = (r, w') ->
  mediafiles w' = mediafiles w
  /\ media_table w' = media_table w /\ tag_table w' = tag_table w
  /\ media_tag_table w' = media_tag_table w /\ next_uuid w' = next_uuid w
  /\ dirs w' = dirs w.
Proof.
  unfold write_file.
  destruct (can_write x p); intros H; injection H as <- <-; simpl;
    repeat split.
Qed.



Lemma create_on_disk_written (cls : MediaClass) (x : Ext) (w w' : World)
  (data d' : Media.Kwargs) (body : bytes) :
  Media.create_on_disk cls x w data body = (Ok d', w') ->
  (forall p, can_write x p = true) ->
  Media.kw_file d' = None
  /\ Media.kw_file_url d' = Media.kw_file_url data
  /\ exists p, Media.kw_file_path d' = Some p /\ truthy_str p = true
               /\ dict_get p (disk w') = Some body.
Proof.
  intros H Hwrite. revert H.
  on_disk_chain x cls data.
  set (w1 := if negb (os_path_exists w destination_dir)
             then snd (os_makedirs x w destination_dir) else w).
  destruct (open_wb x w1 source_path) as [[u|e] w2] eqn:Hopen; [|discriminate].
  assert (Hempty : dict_get source_path (disk w2) = Some []).
  { revert Hopen. unfold open_wb.
    destruct (os_path_split source_path) as [d f].
    destruct (_ && _)%bool; intros H; [|discriminate].
    injection H as _ <-. simpl. apply Lemmas.dict_get_set_same. }
  unfold buffered_write, close_file, write_file. rewrite Hwrite.
  destruct (N.leb _ _); destruct body as [|b0 body];
    destruct (can_close x source_path); intros H; try discriminate;
    injection H as <- <-; simpl; repeat split;
    exists source_path; repeat split;
    try (eapply MediaProps.open_wb_nonempty; exact Hopen);
    try apply Lemmas.dict_get_set_same; exact Hempty.
Qed.

(** X2.  What [create] stored can be read back, but for a URL stored
    on disk.  After a successful [create] whose source bytes are not
    empty, on a disk that takes the write, [get_source_bytes] on the
    new record, in the world that [create] leaves and with whatever
    collaborators, returns those bytes: for inline bytes and for a
    path under every strategy, and for a URL unless the strategy is
    [disk].  For a URL under [disk] it does not read the file that
    [create] wrote: it returns what [urlopen] gives for the URL then,
    and raises when [urlopen] fails. *)
Theorem create_then_get_source_bytes (cls : MediaClass) (x x' : Ext)
  (w w' : World) (kwargs data : Media.Kwargs) (rec : MediaRec) :
  Media.create cls x w kwargs = (Ok rec, w') ->
  Media.create_load x w kwargs = Ok data ->
  truthy_opt truthy_bytes (Media.kw_file data) = true ->
  (forall p, can_write x p = true) ->
  Media.get_source_bytes x' w' rec
  = if (Media.strategy_is (Media.get_source_storage_strategy cls) "disk"
        && truthy_opt truthy_str (Media.kw_file_url kwargs))%bool
    then match urlopen x' (Media.opt_str (Media.kw_file_url kwargs)) with
         | Some bits => Ok (Some bits)
         | None => Raise (RequestError (Media.opt_str (Media.kw_file_url kwargs)))
         end
    else Ok (Some (Media.opt_bytes (Media.kw_file data))).
Proof.
  intros Hc Hload Hbytes Hwrite.
  unfold Media.create in Hc. rewrite Hload, Hbytes in Hc.
  destruct (negb (truthy_opt truthy_str (MEDIA_TYPE cls))); [discriminate|].
  destruct (Nat.eqb _ 0); [discriminate|].
  destruct (Nat.ltb 1 _); [discriminate|].
  assert (Hfile : forall wi r wo,
            Media.insert cls wi data = (Ok r, wo) ->
            Media.get_source_bytes x' wo r
            = Ok (Some (Media.opt_bytes (Media.kw_file data)))).
  { intros wi r wo H. injection H as <- <-.
    unfold Media.get_source_bytes, Media.get_source_file_field. simpl.
    rewrite Hbytes. reflexivity. }
  assert (Hstrat : forall s, Media.get_source_storage_strategy cls = Some s ->
                             s = "database" \/ s = "disk")
    by apply MediaProps.strategy_values.
  destruct (Media.get_source_storage_strategy cls) as [s|];
    [|simpl in *; eauto].
  destruct (Hstrat s eq_refl) as [-> | ->]; simpl in *; [eauto|].
  destruct (Media.create_on_disk cls x w data _) as [[d'|e] w1] eqn:Hd;
    [|discriminate].
  destruct (create_on_disk_written _ _ _ _ _ _ _ Hd Hwrite)
    as (Hnone & Hurl & p & Hp & Hpt & Hget).
  injection Hc as <- <-.
  unfold Media.get_source_bytes, Media.get_source_file_field. simpl.
  rewrite Hnone, Hurl, Hp. simpl.
  destruct (MediaProps.create_load_keeps _ _ _ _ Hload) as (Hu & _ & _).
  rewrite Hu.
  destruct (truthy_opt truthy_str (Media.kw_file_url kwargs)) eqn:Eu.
  - reflexivity.
  - rewrite Hpt. simpl. unfold read_file. simpl. rewrite Hget. reflexivity.
Qed.

Lemma create_then_get_source_bytes_witness :
  match Media.create Examples.ImageDisk Examples.ext Examples.world
                     Examples.kw_url with
  | (Ok rec, w') =>
      Media.get_source_bytes Examples5.ext_offline w' rec
      = Raise (RequestError "http://x/sample.jpg")
      /\ dict_get (Media.opt_str (file_path rec)) (disk w')
         = Some Examples.jpeg
  | (Raise _, _) => False
  end.
Proof.
  destruct (Media.create Examples.ImageDisk Examples.ext Examples.world
                         Examples.kw_url) as [[rec|e] w'] eqn:E.
  - split.
    + apply (create_then_get_source_bytes Examples.ImageDisk Examples.ext
               Examples5.ext_offline Examples.world w' Examples.kw_url
               (Media.mkKw (Some Examples.jpeg) (Some "http://x/sample.jpg")
                  None (Some "sample.jpg") None) rec E);
        reflexivity.
    + vm_compute in E. injection E as <- <-. reflexivity.
  - vm_compute in E. discriminate.
Defined.

(** X3.  A class whose [SOURCE_STORAGE_STRATEGY] is unset, or is not
    one of [database] and [disk], gets from [create] exactly what the
    [database] strategy gives: the same result in the same world, with
    no configuration error. *)
Theorem create_without_strategy (cls : MediaClass) (x : Ext) (w : World)
  (kwargs : Media.Kwargs) :
  Media.get_source_storage_strategy cls = None ->
  Media.create cls x w kwargs
  = Media.create (MediaModel.with_strategy cls (Some "database")) x w kwargs.
Proof.
  intros Hs. unfold Media.create. rewrite Hs.
  change (Media.get_source_storage_strategy
            (MediaModel.with_strategy cls (Some "database")))
    with (Some "database").
  change (MEDIA_TYPE (MediaModel.with_strategy cls (Some "database")))
    with (MEDIA_TYPE cls).
  destruct (negb (truthy_opt truthy_str (MEDIA_TYPE cls))); [reflexivity|].
  destruct (Nat.eqb _ 0); [reflexivity|].
  destruct (Nat.ltb 1 _); [reflexivity|].
  destruct (Media.create_load x w kwargs) as [data|e]; [|reflexivity].
  destruct (truthy_opt truthy_bytes (Media.kw_file data)); reflexivity.
Qed.

Lemma create_without_strategy_witness :
  Media.create Examples2.ImageUnknownStrategy Examples.ext Examples.world
               Examples.kw_url
  = Media.create Examples.ImageDatabase Examples.ext Examples.world
                 Examples.kw_url.
Proof.
  apply (create_without_strategy Examples2.ImageUnknownStrategy Examples.ext
           Examples.world Examples.kw_url).
  reflexivity.
Defined.

End MediaExtra.

(* ================================================================== *)
(** ** File names, queries and the workflow *)

Module NamingExtra.

(** X4.  When [slugify] gives back a name without a dot, the name
    that [slugify_filename] builds splits on the dot into exactly two
    parts, the slug and the extension, so that the unpacking
    [filename, extension = ....split(".")] of [create] cannot fail;
    the extension is the text after the last dot of the lower-cased
    file name and holds no dot. *)
Theorem slugify_filename_two_parts (x : Ext) (filename : string) :
  MediaModel.has_char "."
    (slugify x (join (fst (pop_last (split "." (lower filename)))))) = false ->
  split "." (Media.slugify_filename x filename false)
  = [slugify x (join (fst (pop_last (split "." (lower filename)))));
     snd (pop_last (split "." (lower filename)))]
  /\ MediaModel.has_char "." (snd (pop_last (split "." (lower filename))))
     = false
  /\ In (snd (pop_last (split "." (lower filename))))
        (split "." (lower filename)).
Proof.
  intros Hslug. unfold Media.slugify_filename.
  pose proof (Lemmas.pop_last_spec (split "." (lower filename))
                (Lemmas.split_not_nil _ _)) as Hl.
  pose proof (Lemmas.split_pieces "." (lower filename)) as Hp.
  destruct (pop_last (split "." (lower filename))) as [init ext].
  simpl in *.
  assert (Hin : In ext (split "." (lower filename))).
  { rewrite Hl. apply in_or_app. right. now left. }
  assert (Hext : MediaModel.has_char "." ext = false).
  { rewrite Forall_forall in Hp. now apply Hp. }
  repeat split; trivial.
  change ("." ++ ext)%string with (String "." ext).
  rewrite Lemmas.split_append_sep by exact Hslug.
  now rewrite Lemmas.split_no_sep.
Qed.

Lemma slugify_filename_two_parts_witness :
  split "." (Media.slugify_filename Examples.ext "My.File.JPG" false)
  = ["myfile"; "jpg"].
Proof.
  apply (slugify_filename_two_parts Examples.ext "My.File.JPG").
  reflexivity.
Defined.

(** X5.  A file name without a dot is taken whole for the extension:
    the slug is the slug of the empty name, and the result is that
    slug, a dot, and the lower-cased file name. *)
Theorem slugify_filename_without_dot (x : Ext) (filename : string) :
  MediaModel.has_char "." filename = false ->
  Media.slugify_filename x filename false
  = (slugify x "" ++ "." ++ lower filename)%string.
Proof.
  intros H. unfold Media.slugify_filename.
  rewrite Lemmas.split_no_sep by now rewrite Lemmas.has_dot_lower.
  reflexivity.
Qed.

Lemma slugify_filename_without_dot_witness :
  Media.slugify_filename Examples.ext "README" false = ".readme".
Proof.
  apply (slugify_filename_without_dot Examples.ext "README"). reflexivity.
Defined.

Lemma create_appends (cls : MediaClass) (x : Ext) (w w' : World)
  (kwargs : Media.Kwargs) (rec : MediaRec) :
  Media.create cls x w kwargs = (Ok rec, w') ->
  media_table w' = (media_table w ++ [rec])%list
  /\ media_type rec = Media.opt_str (MEDIA_TYPE cls).
Proof.
  unfold Media.create.
  destruct (negb (truthy_opt truthy_str (MEDIA_TYPE cls))); [discriminate|].
  destruct (Nat.eqb _ 0); [discriminate|].
  destruct (Nat.ltb 1 _); [discriminate|].
  destruct (Media.create_load x w kwargs) as [data|e]; [|discriminate].
  assert (Hins : forall wi d,
            media_table wi = media_table w ->
            Media.insert cls wi d = (Ok rec, w') ->
            media_table w' = (media_table w ++ [rec])%list
            /\ media_type rec = Media.opt_str (MEDIA_TYPE cls)).
  { intros wi d Ht H. injection H as <- <-. simpl. rewrite Ht.
    split; reflexivity. }
  destruct (truthy_opt truthy_bytes (Media.kw_file data)); [|now apply Hins].
  destruct (Media.strategy_is _ "database"); [now apply Hins|].
  destruct (Media.strategy_is _ "disk"); [|now apply Hins].
  destruct (MediaProps.create_on_disk_cases cls x w data
              (Media.opt_bytes (Media.kw_file data))) as (Ht & _).
  destruct (Media.create_on_disk cls x w data _) as [[d'|e] w1];
    [|discriminate].
  now apply Hins.
Qed.

(** X6.  A record that [create] returns is among the rows that
    [query] of the same class ranges over in the world that [create]
    leaves, next to all the rows it ranged over before; and for a
    class registered below [Model.Media] every row of [query] has the
    media type of the class. *)
Theorem create_then_query (name : string) (cls : MediaClass) (x : Ext)
  (w w' : World) (kwargs : Media.Kwargs) (rec : MediaRec) :
  Media.create cls x w kwargs = (Ok rec, w') ->
  In rec (MediaModel.query name cls w')
  /\ (forall r, In r (MediaModel.query name cls w) ->
                In r (MediaModel.query name cls w'))
  /\ (MediaModel.startswith "Model.Media." name = true ->
      Forall (fun r => media_type r = Media.opt_str (MEDIA_TYPE cls))
             (MediaModel.query name cls w')).
Proof.
  intros Hc. destruct (create_appends _ _ _ _ _ _ Hc) as (Ht & Hm).
  unfold MediaModel.query. rewrite Ht.
  destruct (MediaModel.startswith "Model.Media." name).
  - repeat split.
    + apply filter_In. split.
      * apply in_or_app. right. now left.
      * rewrite Hm. apply String.eqb_refl.
    + intros r Hr. apply filter_In in Hr as [Hr He].
      apply filter_In. split; [apply in_or_app; now left | exact He].
    + intros _. apply Forall_forall. intros r Hr.
      apply filter_In in Hr as [_ He]. now apply String.eqb_eq.
  - repeat split.
    + apply in_or_app. right. now left.
    + intros r Hr. apply in_or_app. now left.
    + discriminate.
Qed.

Lemma create_then_query_witness :
  match Media.create Examples.ImageDisk Examples.ext Examples.world
                     Examples.kw_inline with
  | (Ok rec, w') =>
      In rec (MediaModel.query "Model.Media.Image" Examples.ImageDisk w')
  | (Raise _, _) => False
  end.
Proof.
  destruct (Media.create Examples.ImageDisk Examples.ext Examples.world
                         Examples.kw_inline) as [[rec|e] w'] eqn:E.
  - exact (proj1 (create_then_query "Model.Media.Image" Examples.ImageDisk
                    Examples.ext Examples.world w' Examples.kw_inline rec E)).
  - vm_compute in E. discriminate.
Defined.

(** X7.  The transition that [process] of an audio or of a video
    entity makes is among those that [get_workflow_definition] allows
    exactly when the entity is a draft; in particular an archived
    entity is published, a transition the definition does not list. *)
Theorem process_and_workflow (self : MediaRec) :
  (MediaModel.allowed_to (state self) (state (Audio.process self)) = true
   <-> state self = "draft")
  /\ (state self = "archived" ->
      state (Video.process self) = "published"
      /\ MediaModel.allowed_to "archived" "published" = false).
Proof.
  split.
  - rewrite MediaProps.process_eq. simpl.
    unfold MediaModel.allowed_to, MediaModel.get_workflow_definition. simpl.
    destruct (String.eqb_spec (state self) "draft") as [E|E].
    + split; [intros _; exact E | reflexivity].
    + destruct (String.eqb_spec (state self) "published");
        [split; [discriminate | contradiction]|].
      destruct (String.eqb_spec (state self) "archived");
        split; try discriminate; contradiction.
  - intros H. change (Video.process self) with (Audio.process self).
    rewrite MediaProps.process_eq. split; reflexivity.
Qed.

Lemma process_and_workflow_witness :
  state (Video.process Examples2.media_archived) = "published"
  /\ MediaModel.allowed_to "archived" "published" = false.
Proof.
  apply (process_and_workflow Examples2.media_archived). reflexivity.
Defined.

End NamingExtra.

(* ================================================================== *)
(** ** Further properties of the crop transform *)

Module CropExtra.

Lemma quot_two_double (k : Z) : Z.quot (2 * k) 2 = k.
Proof. rewrite Z.mul_comm. apply Z.quot_mul. lia. Qed.

Lemma quot_two_double_succ (k : Z) : (0 <= k)%Z -> Z.quot (2 * k + 1) 2 = k.
Proof.
  intros H. rewrite Z.quot_div_nonneg by lia.
  symmetry. apply (Z.div_unique _ _ _ 1); lia.
Qed.

Lemma quot_two_opp_double_succ (k : Z) :
  (0 <= k)%Z -> Z.quot (- (2 * k + 1)) 2 = (- k)%Z.
Proof.
  intros H. rewrite Z.quot_opp_l by lia. now rewrite quot_two_double_succ.
Qed.

(** The width of the box cut around a scaled image [g] wide. *)
Lemma centered_box_cut (g T : Z) :
  (0 <= g)%Z -> (0 <= T)%Z ->
  (Z.quot (g + T) 2 - Z.quot (g - T) 2 = CropSize.cut T g)%Z.
Proof.
  intros Hg HT. unfold CropSize.cut.
  destruct (Z.leb_spec T g) as [Hle|Hlt]; simpl.
  - now apply ImageProps.centered_box_exact.
  - destruct (Z.even (T - g)) eqn:E.
    + apply Z.even_spec in E as [k Hk].
      replace (g + T)%Z with (2 * (g + k))%Z by lia.
      replace (g - T)%Z with (2 * (- k))%Z by lia.
      rewrite !quot_two_double. lia.
    + rewrite <- Z.negb_odd in E. apply Bool.negb_false_iff in E.
      apply Z.odd_spec in E as [k Hk].
      replace (g + T)%Z with (2 * (g + k) + 1)%Z by lia.
      replace (g - T)%Z with (- (2 * k + 1))%Z by lia.
      rewrite quot_two_double_succ by lia.
      rewrite quot_two_opp_double_succ by lia. lia.
Qed.

(** X8.  The crop of an image at least as wide as tall, to a target of
    positive height: the result is as high as the target and as wide
    as the target, or one pixel narrower exactly when the image scaled
    to the target height is narrower than the target by an odd number
    of pixels. *)
Theorem crop_size_landscape (img : PIL.Image) (W H : Z) :
  (0 < PIL.height img <= PIL.width img)%Z ->
  (0 < H)%Z -> (0 <= W)%Z ->
  Image.__crop img (W, H)
  = Ok (PIL.mkImg
          (CropSize.cut W (Z.quot (H * PIL.width img) (PIL.height img))) H).
Proof.
  intros Himg HH HW.
  unfold Image.__crop.
  rewrite ImageProps.crop_scale_landscape by lia.
  unfold Spec.crop_scale_preserving.
  destruct (Z.geb_spec (PIL.width img) (PIL.height img)); [|lia].
  set (g := Z.quot (H * PIL.width img) (PIL.height img)) in *.
  assert (Hg : (H <= g)%Z).
  { subst g. apply Z.quot_le_lower_bound; [lia|]. nia. }
  simpl. unfold PIL.resize. simpl fst; simpl snd.
  destruct (Z.ltb_spec g 1); [lia|].
  destruct (Z.ltb_spec H 1); [lia|].
  simpl. unfold Image.crop_box. simpl.
  destruct (Z.geb_spec (PIL.width img) (PIL.height img)); [|lia].
  unfold PIL.crop. f_equal. f_equal; [|lia].
  apply centered_box_cut; lia.
Qed.

Lemma crop_size_landscape_witness :
  Image.__crop Examples.landscape (300, 100)%Z = Ok (PIL.mkImg 299 100).
Proof.
  apply (crop_size_landscape Examples.landscape 300 100); simpl; lia.
Defined.

(** X9.  The crop of an image taller than wide: the size that is asked
    of [resize] is the target width by the target width times width
    over height, which is less than the target width; when that height
    is at least one, the result is as wide as the target and as high
    as the target, or one pixel lower when the scaled image is lower
    than the target by an odd number of pixels. *)
Theorem crop_size_portrait (img : PIL.Image) (W H : Z) :
  (0 < PIL.width img < PIL.height img)%Z ->
  (0 < W)%Z -> (0 <= H)%Z ->
  (1 <= Z.quot (W * PIL.width img) (PIL.height img))%Z ->
  (Z.quot (W * PIL.width img) (PIL.height img) < W)%Z
  /\ Image.__crop img (W, H)
     = Ok (PIL.mkImg W
             (CropSize.cut H (Z.quot (W * PIL.width img) (PIL.height img)))).
Proof.
  intros Himg HW HH Hg. split.
  - apply Z.quot_lt_upper_bound; nia.
  - unfold Image.__crop.
    rewrite ImageProps.crop_scale_portrait by lia.
    simpl fst.
    set (g := Z.quot (W * PIL.width img) (PIL.height img)) in *.
    simpl. unfold PIL.resize. simpl fst; simpl snd.
    destruct (Z.ltb_spec W 1); [lia|].
    destruct (Z.ltb_spec g 1); [lia|].
    simpl. unfold Image.crop_box. simpl.
    destruct (Z.geb_spec (PIL.width img) (PIL.height img)); [lia|].
    unfold PIL.crop. f_equal.
    rewrite centered_box_cut by lia. f_equal. lia.
Qed.

Lemma crop_size_portrait_witness :
  Image.__crop Examples.portrait (100, 100)%Z = Ok (PIL.mkImg 100 100).
Proof.
  apply (crop_size_portrait Examples.portrait 100 100);
    simpl; try lia; vm_compute; discriminate.
Defined.

End CropExtra.

(* ================================================================== *)
(** ** Further properties of the image pipeline *)

Module ImageExtra.

(** *** The renditions computed from the class constants *)

Lemma format_item_shape (cls : MediaClass) (x : Ext) (self : MediaRec)
  (name : string) (item r : json) :
  Image.format_item cls x self name item = Ok r ->
  exists i d path url,
    item = JDict i /\ r = JDict d
    /\ json_get "path" d = JStr path /\ json_get "url" d = JStr url
    /\ json_get "width" d = json_get "width" i
    /\ json_get "height" d = json_get "height" i
    /\ json_get "file_format" d = json_get "file_format" i
    /\ json_get "transformation_mode" d = json_get "transformation_mode" i
    /\ json_get "extension" d = json_get "extension" i.
Proof.
  unfold Image.format_item.
  destruct item as [| | | |i]; try discriminate.
  destruct (today x) as [[year month] day].
  destruct (format (DESTINATION_PATH_PATTERN cls) _) as [path|e];
    [|discriminate].
  destruct (format (URL_PATTERN cls) _) as [url|e]; [|discriminate].
  simpl. intros H. injection H as <-.
  exists i. eexists. exists path, url. repeat split.
Qed.

Lemma format_items_keys (cls : MediaClass) (x : Ext) (self : MediaRec)
  (params : dict) :
  forall (acc props : dict),
    Image.format_items cls x self params acc = Ok props ->
    NoDup (map fst acc ++ map fst params) ->
    map fst props = (map fst acc ++ map fst params)%list
    /\ (forall k, ~ In k (map fst params) ->
                  dict_get k props = dict_get k acc)
    /\ (forall name item, In (name, item) params ->
          exists r, dict_get name props = Some r
                    /\ Image.format_item cls x self name item = Ok r).
Proof.
  induction params as [|[name item] rest IH]; intros acc props H Hnd.
  - simpl in *. injection H as <-. rewrite app_nil_r.
    split; [reflexivity|]. split; [reflexivity|]. intros ? ? [].
  - simpl in H.
    destruct (Image.format_item cls x self name item) as [r|e] eqn:Hr;
      [|discriminate].
    simpl in H, Hnd.
    assert (Hfresh : dict_get name acc = None).
    { apply Lemmas.dict_get_none_keys. intros Hin.
      apply NoDup_remove_2 in Hnd. apply Hnd. apply in_or_app. now left. }
    assert (Hrest : ~ In name (map fst rest)).
    { intros Hin. apply NoDup_remove_2 in Hnd. apply Hnd.
      apply in_or_app. now right. }
    rewrite (Lemmas.dict_set_fresh _ _ _ Hfresh) in H.
    destruct (IH _ _ H) as (Hk & Hother & Hin).
    { rewrite map_app. simpl. rewrite <- app_assoc. exact Hnd. }
    split; [|split].
    + rewrite Hk, map_app. simpl. now rewrite <- app_assoc.
    + intros k Hk'. simpl in Hk'.
      rewrite Hother by tauto.
      assert (name <> k) by tauto.
      rewrite <- (Lemmas.dict_set_fresh _ r _ Hfresh).
      now apply Lemmas.dict_get_set_other.
    + intros n i [E|Hi].
      * injection E as <- <-. exists r. split; [|exact Hr].
        rewrite (Hother _ Hrest).
        rewrite <- (Lemmas.dict_set_fresh _ r _ Hfresh).
        apply Lemmas.dict_get_set_same.
      * now apply Hin.
Qed.

(** X10.  When [format_transformation_properties] returns a
    dictionary, it holds one descriptor per entry of [PROCESS_PARAMS],
    under the same names in the same order; each descriptor carries
    the width, height, file format, transformation mode and extension
    of its entry as they are, and a path and a URL that are strings. *)
Theorem format_transformation_properties_entries (cls : MediaClass)
  (x : Ext) (self : MediaRec) (params properties : dict) :
  PROCESS_PARAMS cls = JDict params ->
  NoDup (map fst params) ->
  Image.format_transformation_properties cls x self = Ok (JDict properties) ->
  map fst properties = map fst params
  /\ List.length properties = List.length params
  /\ forall name item, In (name, item) params ->
       exists i d path url,
         item = JDict i /\ dict_get name properties = Some (JDict d)
         /\ json_get "path" d = JStr path /\ json_get "url" d = JStr url
         /\ json_get "width" d = json_get "width" i
         /\ json_get "height" d = json_get "height" i
         /\ json_get "file_format" d = json_get "file_format" i
         /\ json_get "transformation_mode" d
            = json_get "transformation_mode" i
         /\ json_get "extension" d = json_get "extension" i.
Proof.
  intros Hp Hnd. unfold Image.format_transformation_properties.
  rewrite Hp.
  destruct (negb (truthy_json (JDict params))); [discriminate|].
  destruct (negb (truthy_str (DESTINATION_PATH_PATTERN cls))); [discriminate|].
  destruct (negb (truthy_str (URL_PATTERN cls))); [discriminate|].
  destruct (Image.format_items cls x self params []) as [props|e] eqn:Hf;
    [|discriminate].
  simpl. intros H. injection H as <-.
  destruct (format_items_keys _ _ _ _ _ _ Hf Hnd) as (Hk & _ & Hin).
  simpl in Hk. split; [exact Hk|]. split.
  - rewrite <- (length_map fst props), Hk. apply length_map.
  - intros name item Hi. destruct (Hin _ _ Hi) as (r & Hget & Hr).
    destruct (format_item_shape _ _ _ _ _ _ Hr)
      as (i & d & path & url & -> & -> & H).
    exists i, d, path, url. split; [reflexivity|]. split; [exact Hget|].
    exact H.
Qed.

Lemma format_transformation_properties_entries_witness :
  map fst [("thumb", JDict Examples3.thumb_descriptor)]
  = map fst Examples3.thumb_params.
Proof.
  apply (format_transformation_properties_entries Examples.ImageThumb
           Examples.ext Examples.image_draft Examples3.thumb_params
           [("thumb", JDict Examples3.thumb_descriptor)]).
  - reflexivity.
  - repeat constructor. simpl. tauto.
  - reflexivity.
Defined.

(** X11.  [process] checks the destination pattern and the
    parameters, not the URL pattern: on a class with both but without
    [URL_PATTERN], it assigns the [None] that
    [format_transformation_properties] returns to [properties] and then
    raises on [None.items()], the world untouched.  On a class whose
    [PROCESS_PARAMS] is a non-empty list, the shape the docstring
    gives, it raises on [params.items()] and leaves the entity as it
    was. *)
Theorem process_misconfigured (cls : MediaClass) (x : Ext) (w : World)
  (self : MediaRec) :
  truthy_str (DESTINATION_PATH_PATTERN cls) = true ->
  truthy_json (PROCESS_PARAMS cls) = true ->
  (URL_PATTERN cls = "" ->
   Image.process cls x w self
   = (Raise (AttributeError "items"), set_properties self JNull, w))
  /\ (truthy_str (URL_PATTERN cls) = true ->
      (exists l, PROCESS_PARAMS cls = JList l) ->
      Image.process cls x w self = (Raise (AttributeError "items"), self, w)).
Proof.
  intros Hd Hp. unfold Image.process, Image.format_transformation_properties.
  rewrite Hd, Hp. simpl. split.
  - intros ->. reflexivity.
  - intros -> [l Hl]. rewrite Hl. reflexivity.
Qed.

Lemma process_misconfigured_witness :
  Image.process Examples3.ImageNoUrl Examples.ext Examples.world
                Examples.image_draft
  = (Raise (AttributeError "items"),
     set_properties Examples.image_draft JNull, Examples.world).
Proof.
  apply (process_misconfigured Examples3.ImageNoUrl Examples.ext
           Examples.world Examples.image_draft); reflexivity.
Defined.

End ImageExtra.

(* ================================================================== *)
(** ** Patterns, renditions and the files that [process] writes *)

Module RenditionExtra.

Lemma append_nil_r (s : string) : (s ++ "")%string = s.
Proof. induction s as [|c s IH]; simpl; [reflexivity | now rewrite IH]. Qed.

Lemma bind_ok_id (r : result string) : bind r (fun t => Ok t) = r.
Proof. destruct r; reflexivity. Qed.

(** Text without braces is copied. *)
Lemma format_go_literal (kw : list (string * string)) (pre rest : string) :
  MediaModel.has_char "{" pre = false ->
  MediaModel.has_char "}" pre = false ->
  format_go kw (pre ++ rest) None
  = bind (format_go kw rest None) (fun t => Ok (pre ++ t)%string).
Proof.
  induction pre as [|c pre IH]; simpl; intros H1 H2.
  - now rewrite bind_ok_id.
  - apply Bool.orb_false_iff in H1 as [H1 H1'].
    apply Bool.orb_false_iff in H2 as [H2 H2'].
    rewrite H1, H2, (IH H1' H2').
    destruct (format_go kw rest None); reflexivity.
Qed.

(** A replacement field is looked up among the keyword arguments. *)
Lemma format_go_field (kw : list (string * string)) (f rest : string) :
  forall acc,
    MediaModel.has_char "}" f = false ->
    format_go kw (f ++ String "}" rest) (Some acc)
    = match dict_get (acc ++ f)%string kw with
      | Some v => bind (format_go kw rest None) (fun t => Ok (v ++ t)%string)
      | None => Raise (KeyError (acc ++ f)%string)
      end.
Proof.
  induction f as [|c f IH]; simpl; intros acc H.
  - now rewrite append_nil_r.
  - apply Bool.orb_false_iff in H as [H H'].
    rewrite H, (IH _ H'), Lemmas.append_assoc. reflexivity.
Qed.

Lemma format_unknown_field (kw : list (string * string))
  (pre f post : string) :
  MediaModel.has_char "{" pre = false ->
  MediaModel.has_char "}" pre = false ->
  MediaModel.has_char "}" f = false ->
  dict_get f kw = None ->
  format (pre ++ "{" ++ f ++ "}" ++ post) kw = Raise (KeyError f).
Proof.
  intros H1 H2 H3 H4. unfold format.
  rewrite format_go_literal by assumption.
  change ("{" ++ f ++ "}" ++ post)%string
    with (String "{" (f ++ String "}" post)).
  simpl. rewrite format_go_field by assumption. simpl.
  now rewrite H4.
Qed.

(** X12.  The docstring of [format_transformation_properties] offers
    [width], [height], [file_format] and the transformation mode to
    both patterns, but the destination pattern is formatted without
    them: a destination pattern that names one of them makes
    [format_transformation_properties] raise [KeyError], and [process]
    with it, the entity and the world untouched. *)
Theorem destination_pattern_variables (cls : MediaClass) (x : Ext)
  (w : World) (self : MediaRec) (pre post f name : string)
  (item rest : dict) :
  In f Examples3.not_for_destination ->
  MediaModel.has_char "{" pre = false ->
  MediaModel.has_char "}" pre = false ->
  DESTINATION_PATH_PATTERN cls = (pre ++ "{" ++ f ++ "}" ++ post)%string ->
  truthy_str (URL_PATTERN cls) = true ->
  PROCESS_PARAMS cls = JDict ((name, JDict item) :: rest) ->
  Image.format_transformation_properties cls x self = Raise (KeyError f)
  /\ Image.process cls x w self = (Raise (KeyError f), self, w).
Proof.
  intros Hf H1 H2 Hd Hu Hp.
  assert (Ht : truthy_str (DESTINATION_PATH_PATTERN cls) = true).
  { rewrite Hd. destruct pre; reflexivity. }
  assert (Hfmt : Image.format_transformation_properties cls x self
                 = Raise (KeyError f)).
  { unfold Image.format_transformation_properties.
    rewrite Hp, Ht, Hu. simpl. unfold Image.format_item.
    destruct (today x) as [[year month] day]. rewrite Hd.
    rewrite format_unknown_field; trivial.
    - simpl in Hf. destruct Hf as [<-|[<-|[<-|[<-|[]]]]]; reflexivity.
    - simpl in Hf. destruct Hf as [<-|[<-|[<-|[<-|[]]]]]; reflexivity. }
  split; [exact Hfmt|].
  unfold Image.process. rewrite Ht, Hp, Hfmt. reflexivity.
Qed.

Lemma destination_pattern_variables_witness :
  Image.process Examples3.ImageWidthInPath Examples.ext Examples.world
                Examples.image_draft
  = (Raise (KeyError "width"), Examples.image_draft, Examples.world).
Proof.
  apply (destination_pattern_variables Examples3.ImageWidthInPath
           Examples.ext Examples.world Examples.image_draft
           "/tmp/r/" "/{filename}.{extension}" "width" "thumb"
           [("size", JStr "100x100"); ("width", JNum 100);
            ("height", JNum 100); ("extension", JStr "jpg");
            ("file_format", JStr "JPEG");
            ("transformation_mode", JStr "crop")] []);
    try reflexivity.
  simpl. tauto.
Defined.

(** *** The files written *)

Lemma open_wb_disk (x : Ext) (w w' : World) (p : string) (r : result unit) :
  open_wb x w p = (r, w') ->
  forall q, q <> p -> dict_get q (disk w') = dict_get q (disk w).
Proof.
  unfold open_wb. destruct (os_path_split p) as [d f].
  destruct (_ && _)%bool; intros H; injection H as <- <-; intros q Hq;
    [|reflexivity].
  simpl. apply Lemmas.dict_get_set_other. congruence.
Qed.

Lemma write_file_disk (x : Ext) (w w' : World) (p : string) (b : bytes)
  (r : result unit) :
  write_file x w p b = (r, w') ->
  (forall q, q <> p -> dict_get q (disk w') = dict_get q (disk w))
  /\ (is_ok r = true -> dict_get p (disk w') = Some b).
Proof.
  unfold write_file.
  destruct (can_write x p); intros H; injection H as <- <-; simpl; split;
    try discriminate; try reflexivity.
  - intros q Hq. apply Lemmas.dict_get_set_other. congruence.
  - intros _. apply Lemmas.dict_get_set_same.
Qed.

Lemma os_makedirs_result (x : Ext) (w : World) (d : string) :
  let w' := snd (os_makedirs x w d) in
  disk w' = disk w /\ mediafiles w' = mediafiles w
  /\ media_table w' = media_table w /\ tag_table w' = tag_table w
  /\ media_tag_table w' = media_tag_table w /\ next_uuid w' = next_uuid w.
Proof. apply MediaExtra.os_makedirs_frame. Qed.

(** [generate] leaves the tables alone and, on disk, every file but
    the one at the path of the descriptor; when it returns under a
    known mode that file holds the encoded rendition, tagged if the
    entity has metadata to tag it with. *)
Lemma generate_frame (x : Ext) (w w' : World) (self : MediaRec)
  (name : string) (params : json) (r : result unit) :
  Image.generate x w self name params = (r, w') ->
  mediafiles w' = mediafiles w
  /\ media_table w' = media_table w /\ tag_table w' = tag_table w
  /\ media_tag_table w' = media_tag_table w /\ next_uuid w' = next_uuid w
  /\ (forall q, Rendition.path_of params <> JStr q ->
                dict_get q (disk w') = dict_get q (disk w)).
Proof.
  unfold Image.generate.
  destruct (Image.get_image_object_from_byte x w self) as [source|e];
    [|intros H; injection H as <- <-; repeat split].
  destruct params as [| | | |params];
    try (intros H; injection H as <- <-; repeat split; fail).
  simpl Rendition.path_of.
  destruct (negb _);
    [intros H; injection H as <- <-; repeat split|].
  destruct (json_get "path" params) as [| |path| |];
    try (intros H; injection H as <- <-; repeat split; fail).
  destruct (os_path_split path) as [prefix filename].
  set (m := if negb (os_path_exists w prefix)
            then os_makedirs x w prefix else (Ok tt, w)).
  assert (Hm : disk (snd m) = disk w /\ mediafiles (snd m) = mediafiles w
               /\ media_table (snd m) = media_table w
               /\ tag_table (snd m) = tag_table w
               /\ media_tag_table (snd m) = media_tag_table w
               /\ next_uuid (snd m) = next_uuid w).
  { subst m. destruct (negb _); [apply os_makedirs_result | repeat split]. }
  destruct m as [[u|e] w1]; simpl in Hm;
    destruct Hm as (Hd & Hf & Ht & Hg & Hj & Hn);
    [|intros H; injection H as <- <-; repeat split; congruence].
  destruct (bind _ _) as [generated|e];
    [|intros H; injection H as <- <-; repeat split; congruence].
  destruct (pil_save x generated _) as [imageBytes|];
    [|intros H; injection H as <- <-; repeat split; congruence].
  destruct (if truthy_json (meta self) then _ else _) as [stream_meta|e];
    [|intros H; injection H as <- <-; repeat split; congruence].
  destruct (open_wb x w1 path) as [[u'|e] w2] eqn:Hopen;
    destruct (MediaExtra.open_wb_frame _ _ _ _ _ Hopen)
      as (Hf2 & Ht2 & Hg2 & Hj2 & Hn2 & Hr);
    pose proof (open_wb_disk _ _ _ _ _ Hopen) as Hd2.
  - intros Hwrite.
    destruct (MediaExtra.write_file_frame _ _ _ _ _ _ Hwrite)
      as (Hf3 & Ht3 & Hg3 & Hj3 & Hn3 & _).
    destruct (write_file_disk _ _ _ _ _ _ Hwrite) as (Hd3 & _).
    repeat split; try congruence.
    intros q Hq. assert (q <> path) by congruence.
    rewrite Hd3, Hd2, Hd by assumption. reflexivity.
  - intros H; injection H as <- <-. rewrite (Hr eq_refl).
    repeat split; congruence.
Qed.

Lemma generate_all_frame (x : Ext) (self : MediaRec) (items : dict) :
  forall (w w' : World) (r : result unit),
    Image.generate_all x w self items = (r, w') ->
    mediafiles w' = mediafiles w
    /\ media_table w' = media_table w /\ tag_table w' = tag_table w
    /\ media_tag_table w' = media_tag_table w /\ next_uuid w' = next_uuid w
    /\ (forall q,
          (forall k v, In (k, v) items -> Rendition.path_of v <> JStr q) ->
          dict_get q (disk w') = dict_get q (disk w)).
Proof.
  induction items as [|[k v] rest IH]; intros w w' r H; simpl in H.
  - injection H as <- <-. repeat split.
  - destruct (Image.generate x w self k v) as [[u|e] w1] eqn:Hg;
      destruct (generate_frame _ _ _ _ _ _ _ Hg)
        as (Hf & Ht & Hgt & Hj & Hn & Hd).
    + destruct (IH _ _ _ H) as (Hf' & Ht' & Hgt' & Hj' & Hn' & Hd').
      repeat split; try congruence.
      intros q Hq. rewrite Hd', Hd; [reflexivity | |].
      * apply (Hq k v). now left.
      * intros k' v' Hin. apply (Hq k' v'). now right.
    + injection H as <- <-. repeat split; try congruence.
      intros q Hq. apply Hd. apply (Hq k v). now left.
Qed.

(** X13.  Whatever [process] of an image returns or raises, it leaves
    every table and every column of the entity but [properties] as
    they were, and on disk every file that is not at the path of one
    of the renditions it has put in [properties]. *)
Theorem process_frame (cls : MediaClass) (x : Ext) (w : World)
  (self : MediaRec) :
  let '(r, self', w') := Image.process cls x w self in
  mediafiles w' = mediafiles w
  /\ media_table w' = media_table w /\ tag_table w' = tag_table w
  /\ media_tag_table w' = media_tag_table w /\ next_uuid w' = next_uuid w
  /\ self' = set_properties self (properties self')
  /\ (forall q,
        (forall k v, In (k, v) (Rendition.renditions (properties self')) ->
                     Rendition.path_of v <> JStr q) ->
        dict_get q (disk w') = dict_get q (disk w)).
Proof.
  unfold Image.process.
  assert (Hself : self = set_properties self (properties self))
    by (destruct self; reflexivity).
  destruct (negb (truthy_str (DESTINATION_PATH_PATTERN cls)));
    [repeat split; exact Hself|].
  destruct (negb (truthy_json (PROCESS_PARAMS cls)));
    [repeat split; exact Hself|].
  destruct (Image.format_transformation_properties cls x self) as [props|e];
    [|repeat split; exact Hself].
  destruct props as [| | | |items]; try (repeat split; fail).
  destruct (Image.generate_all x w (set_properties self (JDict items)) items)
    as [[u|e] w'] eqn:Hg;
    destruct (generate_all_frame _ _ _ _ _ _ Hg)
      as (Hf & Ht & Hgt & Hj & Hn & Hd);
    repeat split; trivial.
Qed.

Lemma process_frame_witness :
  dict_get "/tmp/in/a.jpg"
    (disk (snd (Image.process Examples.ImageThumb Examples.ext Examples.world
                              Examples.image_draft)))
  = dict_get "/tmp/in/a.jpg" (disk Examples.world).
Proof.
  pose proof (process_frame Examples.ImageThumb Examples.ext Examples.world
                Examples.image_draft) as H.
  destruct (Image.process Examples.ImageThumb Examples.ext Examples.world
                          Examples.image_draft) as [[r self'] w'] eqn:E.
  destruct H as (_ & _ & _ & _ & _ & _ & H).
  apply H. intros k v Hin.
  vm_compute in E. injection E as _ <- _.
  simpl in Hin. destruct Hin as [Hin|[]]. injection Hin as _ <-.
  discriminate.
Defined.

(** X14.  When [generate] returns for a descriptor with a known
    transformation mode and a path, the file at that path holds bytes
    that the encoder produced for the requested format when the entity
    has no metadata, and every other file is as it was. *)
Theorem generate_writes_rendition (x : Ext) (w w' : World) (self : MediaRec)
  (name path : string) (params : dict) :
  Image.generate x w self name (JDict params) = (Ok tt, w') ->
  (Image.is_mode (json_get "transformation_mode" params) "resize"
   || Image.is_mode (json_get "transformation_mode" params) "preserve"
   || Image.is_mode (json_get "transformation_mode" params) "crop")%bool
  = true ->
  json_get "path" params = JStr path ->
  (exists body, dict_get path (disk w') = Some body
     /\ (truthy_json (meta self) = false ->
         exists generated,
           pil_save x generated (json_get "file_format" params) = Some body))
  /\ (forall q, q <> path -> dict_get q (disk w') = dict_get q (disk w)).
Proof.
  intros Hgen Hmode Hpath. split.
  - revert Hgen. unfold Image.generate.
    destruct (Image.get_image_object_from_byte x w self) as [source|e];
      [|discriminate].
    rewrite Hmode, Hpath. simpl negb. cbv iota.
    destruct (os_path_split path) as [prefix filename].
    destruct (if negb (os_path_exists w prefix) then _ else _)
      as [[u|e] w1]; [|discriminate].
    destruct (bind _ _) as [generated|e]; [|discriminate].
    destruct (pil_save x generated _) as [imageBytes|] eqn:Hsave;
      [|discriminate].
    destruct (truthy_json (meta self)) eqn:Hmeta.
    + destruct (Image.set_file_metadata x _ _) as [stream_meta|e];
        [|discriminate].
      destruct (open_wb x w1 path) as [[u'|e] w2]; [|discriminate].
      intros Hwrite.
      destruct (write_file_disk _ _ _ _ _ _ Hwrite) as (_ & Hb).
      eexists. split; [apply Hb; reflexivity | discriminate].
    + destruct (open_wb x w1 path) as [[u'|e] w2]; [|discriminate].
      simpl. intros Hwrite.
      destruct (write_file_disk _ _ _ _ _ _ Hwrite) as (_ & Hb).
      exists imageBytes. split; [apply Hb; reflexivity|].
      intros _. exists generated. exact Hsave.
  - destruct (generate_frame _ _ _ _ _ _ _ Hgen) as (_ & _ & _ & _ & _ & Hd).
    intros q Hq. apply Hd. simpl. rewrite Hpath. congruence.
Qed.

Lemma generate_writes_rendition_witness :
  match Image.generate Examples.ext Examples.world Examples.image_draft
          "thumb" (JDict Examples3.thumb_descriptor) with
  | (Ok _, w') =>
      dict_get "/tmp/in/a.jpg" (disk w')
      = dict_get "/tmp/in/a.jpg" (disk Examples.world)
  | (Raise _, _) => False
  end.
Proof.
  destruct (Image.generate Examples.ext Examples.world Examples.image_draft
              "thumb" (JDict Examples3.thumb_descriptor))
    as [[[]|e] w'] eqn:E.
  - apply (generate_writes_rendition Examples.ext Examples.world w'
             Examples.image_draft "thumb" "/tmp/r/thumb/a.jpg"
             Examples3.thumb_descriptor E); try reflexivity.
    discriminate.
  - vm_compute in E. discriminate.
Defined.

End RenditionExtra.

(* ================================================================== *)
(** ** Properties of the metadata of images *)

Module ImageMetadataExtra.

Lemma dict_get_in_values (k v : string) (keys : list (string * string)) :
  dict_get k keys = Some v -> In v (map snd keys).
Proof.
  induction keys as [|[k' v'] keys IH]; simpl; [discriminate|].
  destruct (String.eqb k k'); [intros H; injection H as ->; now left|].
  intros H. right. now apply IH.
Qed.

Lemma in_dict_set_keys {V} (k k' : string) (v : V) (d : list (string * V)) :
  In k (map fst (dict_set k' v d)) -> k = k' \/ In k (map fst d).
Proof.
  rewrite Lemmas.dict_set_keys.
  destruct (existsb _ _); [tauto|].
  intros H. apply in_app_or in H as [H|[H|[]]]; auto.
Qed.

Lemma select_meta_fold_keys (keys : list (string * string)) (m : dict) :
  forall acc k,
    In k (map fst (fold_left
                     (fun acc kv =>
                        match dict_get (fst kv) keys with
                        | Some k' => dict_set k' (snd kv) acc
                        | None => acc
                        end) m acc)) ->
    In k (map fst acc) \/ In k (map snd keys).
Proof.
  induction m as [|[k0 v0] m IH]; simpl; intros acc k H; [now left|].
  apply IH in H as [H|H]; [|now right].
  destruct (dict_get k0 keys) as [k'|] eqn:E; [|now left].
  apply in_dict_set_keys in H as [->|H]; [|now left].
  right. eapply dict_get_in_values. exact E.
Qed.

Lemma select_meta_keys (keys : list (string * string)) (m : dict) (k : string) :
  In k (map fst (Image.select_meta keys m)) -> In k (map snd keys).
Proof.
  intros H. apply select_meta_fold_keys in H as [[]|H]. exact H.
Qed.

Lemma select_meta_unknown (keys : list (string * string)) (m : dict) :
  (forall k, In k (map fst m) -> dict_get k keys = None) ->
  Image.select_meta keys m = [].
Proof.
  unfold Image.select_meta. generalize (@nil (string * json)) as acc.
  induction m as [|[k0 v0] m IH]; simpl; intros acc H; [reflexivity|].
  rewrite (H k0) by now left.
  apply IH. intros k Hk. apply H. now right.
Qed.

(** X15.  Metadata none of whose keys is [datetime] or one of the six
    XMP fields is dropped: [set_file_metadata] returns [None] without
    handing anything to the codec, whatever the stream. *)
Theorem set_file_metadata_unknown_keys (x : Ext) (stream : option bytes)
  (m : dict) :
  (forall k, In k (map fst m) ->
             dict_get k Image.exif_keys = None
             /\ dict_get k Image.xmp_keys = None) ->
  Image.set_file_metadata x stream (JDict m) = Ok None.
Proof.
  intros H. unfold Image.set_file_metadata.
  destruct stream as [b|]; [|reflexivity].
  destruct (negb (truthy_json (JDict m))); [reflexivity|].
  rewrite !select_meta_unknown; [reflexivity | |];
    intros k Hk; now apply H.
Qed.

Lemma set_file_metadata_unknown_keys_witness :
  Image.set_file_metadata Examples.ext (Some Examples.jpeg)
    (JDict [("caption", JStr "c"); ("date", JStr "2021")]) = Ok None.
Proof.
  apply (set_file_metadata_unknown_keys Examples.ext (Some Examples.jpeg)
           [("caption", JStr "c"); ("date", JStr "2021")]).
  intros k [<-|[<-|[]]]; split; reflexivity.
Defined.

(** X16.  Of the keys under which [set_file_metadata] writes, the only
    one that [get_file_metadata] reads is
    [Exif.Image.DateTimeOriginal]: the XMP fields are written under
    [Xmp.xmp.] and read under [Xmp.dc.], so that a title, description,
    creator, contributor, publisher or rights written by the one is
    not among what the other looks up. *)
Theorem written_keys_read_back (m : dict) (k : string) :
  In k (map fst (Image.select_meta Image.exif_keys m))
  \/ In k (map fst (Image.select_meta Image.xmp_keys m)) ->
  In k (map snd ImageMetadata.exif_keys)
  \/ In k (map (fun f => "Xmp.dc." ++ f)%string ImageMetadata.xmp_keys) ->
  k = "Exif.Image.DateTimeOriginal".
Proof.
  intros Hw Hr.
  assert (Hw' : In k (map snd Image.exif_keys)
                \/ In k (map snd Image.xmp_keys)).
  { destruct Hw as [H|H]; [left | right]; eapply select_meta_keys; exact H. }
  clear Hw. simpl in Hw', Hr.
  destruct Hw' as [[<-|[]] | Hx]; [reflexivity|].
  repeat (destruct Hx as [<-|Hx];
          [repeat (destruct Hr as [Hr|Hr]; try discriminate Hr;
                   try contradiction) |]).
  contradiction.
Qed.

Lemma written_keys_read_back_witness :
  "Exif.Image.DateTimeOriginal" = "Exif.Image.DateTimeOriginal".
Proof.
  apply (written_keys_read_back [("datetime", JStr "2021:03:07")]
           "Exif.Image.DateTimeOriginal").
  - left. simpl. now left.
  - left. simpl. now left.
Defined.

(** *** What [get_file_metadata] returns *)

Lemma dict_set_nodup {V} (k : string) (v : V) (d : list (string * V)) :
  NoDup (map fst d) -> NoDup (map fst (dict_set k v d)).
Proof.
  intros H. rewrite Lemmas.dict_set_keys.
  destruct (existsb (String.eqb k) (map fst d)) eqn:E; [exact H|].
  apply NoDup_app; [exact H | repeat constructor; intros [] | ].
  intros a Ha [Hk|[]]. subst a.
  assert (existsb (String.eqb k) (map fst d) = true).
  { apply existsb_exists. exists k. split; [exact Ha | apply String.eqb_refl]. }
  congruence.
Qed.

Lemma dict_set_forall {V} (P : string * V -> Prop) (k : string) (v : V)
  (d : list (string * V)) :
  Forall P d -> P (k, v) -> Forall P (dict_set k v d).
Proof.
  intros Hd Hk. induction Hd as [|[k' v'] d Hx Hd IH]; simpl.
  - repeat constructor. exact Hk.
  - destruct (String.eqb k k'); constructor; auto.
Qed.

Lemma xmp_loop_ok (xmp_data : dict) (keys : list string) :
  forall meta,
    incl keys ImageMetadata.xmp_keys ->
    NoDup (map fst meta) /\ Forall ImageMetadata.entry_ok meta ->
    NoDup (map fst (ImageMetadata.xmp_loop xmp_data keys meta))
    /\ Forall ImageMetadata.entry_ok (ImageMetadata.xmp_loop xmp_data keys meta).
Proof.
  induction keys as [|k keys IH]; simpl; intros meta Hincl [Hnd Hok];
    [now split|].
  apply IH; [intros a Ha; apply Hincl; now right|].
  destruct (truthy_json (json_get _ xmp_data)) eqn:E; [|now split].
  split; [now apply dict_set_nodup|].
  apply dict_set_forall; [exact Hok|]. split; [|exact E].
  cbn [fst]. apply in_or_app. left. apply Hincl. now left.
Qed.

Lemma exif_loop_ok (exif_data : dict) (keys : list (string * string)) :
  forall meta,
    incl keys ImageMetadata.exif_keys ->
    NoDup (map fst meta) /\ Forall ImageMetadata.entry_ok meta ->
    NoDup (map fst (ImageMetadata.exif_loop exif_data keys meta))
    /\ Forall ImageMetadata.entry_ok (ImageMetadata.exif_loop exif_data keys meta).
Proof.
  induction keys as [|[k v] keys IH]; simpl; intros meta Hincl [Hnd Hok];
    [now split|].
  apply IH; [intros a Ha; apply Hincl; now right|].
  destruct (truthy_json (json_get v exif_data)) eqn:E; [|now split].
  split; [now apply dict_set_nodup|].
  apply dict_set_forall; [exact Hok|]. split; [|exact E].
  cbn [fst]. apply in_or_app. right.
  change k with (fst (k, v)). apply in_map. apply Hincl. now left.
Qed.

Lemma exif_loop_creator (exif_data meta : dict) :
  truthy_json (json_get "Exif.Image.Artist" exif_data) = true ->
  dict_get "creator"
    (ImageMetadata.exif_loop exif_data ImageMetadata.exif_keys meta)
  = Some (json_get "Exif.Image.Artist" exif_data).
Proof.
  intros H. simpl. rewrite H.
  destruct (truthy_json (json_get "Exif.Image.Copyright" exif_data)).
  - rewrite Lemmas.dict_get_set_other by discriminate.
    apply Lemmas.dict_get_set_same.
  - apply Lemmas.dict_get_set_same.
Qed.

(** X17.  The dictionary that [get_file_metadata] returns has distinct
    keys, all among the seven XMP fields and [datetime]; no value in it
    is empty; and an artist in the EXIF data is the [creator] it
    returns, whatever the XMP data say. *)
Theorem get_file_metadata_result (r : ImageMetadata.Exiv2) (b : bytes)
  (exif_data xmp_data meta : dict) :
  ImageMetadata.read r b = Some (exif_data, xmp_data) ->
  ImageMetadata.get_file_metadata r (Some b) = Ok (Some meta) ->
  NoDup (map fst meta)
  /\ Forall (fun kv =>
               In (fst kv) (ImageMetadata.xmp_keys ++ ["datetime"])
               /\ truthy_json (snd kv) = true) meta
  /\ (truthy_json (json_get "Exif.Image.Artist" exif_data) = true ->
      dict_get "creator" meta
      = Some (json_get "Exif.Image.Artist" exif_data)).
Proof.
  intros Hread. unfold ImageMetadata.get_file_metadata. rewrite Hread.
  intros H. injection H as <-.
  set (m1 := match xmp_data with
             | [] => []
             | _ => ImageMetadata.xmp_loop xmp_data ImageMetadata.xmp_keys []
             end).
  assert (H1 : NoDup (map fst m1) /\ Forall ImageMetadata.entry_ok m1).
  { subst m1. destruct xmp_data; [split; constructor|].
    apply xmp_loop_ok; [apply incl_refl | split; constructor]. }
  assert (H2 : NoDup (map fst match exif_data with
                              | [] => m1
                              | _ => ImageMetadata.exif_loop exif_data
                                       ImageMetadata.exif_keys m1
                              end)
               /\ Forall ImageMetadata.entry_ok match exif_data with
                                  | [] => m1
                                  | _ => ImageMetadata.exif_loop exif_data
                                           ImageMetadata.exif_keys m1
                                  end).
  { destruct exif_data; [exact H1|].
    apply exif_loop_ok; [apply incl_refl | exact H1]. }
  destruct H2 as (Hnd & Hok). split; [exact Hnd|]. split.
  - eapply Forall_impl; [|exact Hok].
    intros [k v] [Hin Ht]. split; [|exact Ht].
    simpl in *. intuition (subst; auto 12).
  - intros Ht. destruct exif_data as [|e0 exif_data'].
    + discriminate.
    + now apply exif_loop_creator.
Qed.

Lemma get_file_metadata_result_witness :
  dict_get "creator"
    [("title", JStr "t"); ("creator", JStr "a")] = Some (JStr "a").
Proof.
  apply (get_file_metadata_result Examples3.exiv2 Examples.jpeg
           [("Exif.Image.Artist", JStr "a")]
           [("Xmp.dc.creator", JStr "c"); ("Xmp.dc.title", JStr "t")]
           [("title", JStr "t"); ("creator", JStr "a")]);
    reflexivity.
Defined.

(** *** The update hook of images *)

(** X18.  Under the [disk] strategy, for a record whose source is its
    [file_path]: when the codec returns tagged bytes, the hook writes
    them over the beginning of the file and leaves the rest of the
    world alone; the file is not truncated, so that bytes of the old
    content beyond the length of the tagged bytes stay in place. *)
Theorem hook_rewrites_file (cls : MediaClass) (x : Ext) (w : World)
  (target : MediaRec) (p : string) (old tagged : bytes) :
  Media.get_source_storage_strategy cls = Some "disk" ->
  Media.get_source_file_field target = Some "file_path" ->
  file_path target = Some p ->
  dict_get p (disk w) = Some old ->
  Image.set_file_metadata x (Some old) (meta target) = Ok (Some tagged) ->
  truthy_bytes tagged = true ->
  can_open x p = true -> can_write x p = true ->
  ImageMetadata.before_update_orm_event cls x w target
  = (Ok tt,
     set_disk w (dict_set p (tagged ++ skipn (List.length tagged) old)%list
                          (disk w)))
  /\ List.length (tagged ++ skipn (List.length tagged) old)%list
     = Nat.max (List.length tagged) (List.length old).
Proof.
  intros Hs Hf Hp Hold Hset Ht Hopen Hwrite. split.
  - assert (Hbytes : Media.get_source_bytes x w target = Ok (Some old)).
    { unfold Media.get_source_bytes. rewrite Hf, Hp. simpl.
      unfold read_file. now rewrite Hold. }
    unfold ImageMetadata.before_update_orm_event.
    rewrite Hbytes, Hset, Hs, Hf, Hp.
    change (Media.strategy_is (Some "disk") "disk"
            && Media.strategy_is (Some "file_path") "file_path")%bool
      with true.
    cbv iota. unfold Media.opt_str, ImageMetadata.open_rb_plus.
    rewrite Hold, Hopen. cbn [truthy_opt Media.opt_bytes]. rewrite Ht.
    unfold ImageMetadata.write_at_start. now rewrite Hwrite.
  - rewrite length_app, length_skipn. lia.
Qed.

Lemma hook_rewrites_file_witness :
  ImageMetadata.before_update_orm_event Examples.ImageDisk
    Examples3.ext_short_tag Examples.world Examples3.image_on_disk
  = (Ok tt,
     set_disk Examples.world
       [("/tmp/in/a.jpg", [Byte.xff; Byte.xd8; Byte.xff; Byte.xe1])]).
Proof.
  apply (hook_rewrites_file Examples.ImageDisk Examples3.ext_short_tag
           Examples.world Examples3.image_on_disk "/tmp/in/a.jpg"
           Examples.jpeg2 Examples.encoded); reflexivity.
Defined.

(** X19.  The hook acts on the world only under the [disk] strategy
    and for a record whose source is its [file_path]: in every other
    case, among them every record created from a URL, the world is
    left as it was.  Under the [database] strategy, for a record whose
    source is its [file], tagged bytes from the codec make the hook
    raise [AttributeError], since it calls [get_bytes()] on them. *)
Theorem hook_elsewhere (cls : MediaClass) (x : Ext) (w : World)
  (target : MediaRec) :
  (Media.strategy_is (Media.get_source_storage_strategy cls) "disk"
   && Media.strategy_is (Media.get_source_file_field target) "file_path")%bool
  = false ->
  snd (ImageMetadata.before_update_orm_event cls x w target) = w
  /\ (forall tagged,
        Media.get_source_storage_strategy cls = Some "database" ->
        Media.get_source_file_field target = Some "file" ->
        Image.set_file_metadata x (Some (Media.opt_bytes (file target)))
                                (meta target) = Ok (Some tagged) ->
        truthy_bytes tagged = true ->
        ImageMetadata.before_update_orm_event cls x w target
        = (Raise (AttributeError "get_bytes"), w)).
Proof.
  intros Hno. split.
  - unfold ImageMetadata.before_update_orm_event. rewrite Hno.
    destruct (Media.get_source_bytes x w target) as [stream|e];
      [|reflexivity].
    destruct (Image.set_file_metadata x stream (meta target))
      as [tagged_stream|e]; [|reflexivity].
    destruct (Media.strategy_is (Media.get_source_storage_strategy cls)
                                "database"
              && Media.strategy_is (Media.get_source_file_field target)
                                   "file")%bool; [|reflexivity].
    destruct (truthy_opt truthy_bytes tagged_stream); reflexivity.
  - intros tagged Hs Hf Hset Ht.
    assert (Hbytes : Media.get_source_bytes x w target
                     = Ok (Some (Media.opt_bytes (file target)))).
    { unfold Media.get_source_bytes. now rewrite Hf. }
    unfold ImageMetadata.before_update_orm_event.
    rewrite Hbytes, Hset, Hs, Hf.
    change (Media.strategy_is (Some "database") "disk") with false.
    change (Media.strategy_is (Some "database") "database"
            && Media.strategy_is (Some "file") "file")%bool with true.
    cbv iota. cbn [andb truthy_opt]. now rewrite Ht.
Qed.

Lemma hook_elsewhere_witness :
  snd (ImageMetadata.before_update_orm_event Examples.ImageDisk
         Examples3.ext_short_tag Examples.world Examples3.image_from_url)
  = Examples.world.
Proof.
  apply (hook_elsewhere Examples.ImageDisk Examples3.ext_short_tag
           Examples.world Examples3.image_from_url).
  reflexivity.
Defined.

End ImageMetadataExtra.

(* ================================================================== *)
(** ** Invariants of the metadata hooks of [Audio] and [Video] *)

Module HookInvariants.

Import WellFormed.






(** *** Audio *)









(** *** Video *)





End HookInvariants.

(* ================================================================== *)
(** ** Genres read from and written to the file *)

Module GenresExtra.

Lemma tokens_clean (s t : string) :
  In t (AudioMetadata.tokens s) ->
  lower t = t /\ MediaModel.has_char "," t = false.
Proof.
  unfold AudioMetadata.tokens. intros H.
  apply in_map_iff in H as (u & <- & Hu).
  apply filter_In in Hu as [Hu _].
  pose proof (Lemmas.split_pieces "," s) as Hp.
  rewrite Forall_forall in Hp. specialize (Hp u Hu).
  split; [apply Lemmas.lower_idem|].
  rewrite Lemmas.has_comma_lower. now apply Lemmas.has_char_strip.
Qed.

Lemma flatten_clean (v : list json) :
  forall res, AudioMetadata.flatten v = Ok res ->
  Forall (fun t => lower t = t /\ MediaModel.has_char "," t = false) res.
Proof.
  induction v as [|j v IH]; simpl; intros res H.
  - injection H as <-. constructor.
  - destruct j; try discriminate.
    destruct (AudioMetadata.flatten v) as [r|e]; [|discriminate].
    simpl in H. injection H as <-.
    apply Forall_app. split; [|now apply IH].
    apply Forall_forall. intros t Ht. eapply tokens_clean. exact Ht.
Qed.

Lemma genres_clean (v v' : json) (l : list json) :
  AudioMetadata.genres v = Ok v' -> v' = JList l ->
  Forall (fun j => exists t, j = JStr t /\ lower t = t
                             /\ MediaModel.has_char "," t = false) l.
Proof.
  destruct v as [| |s|raw|]; simpl; intros H E;
    try (injection H as <-; discriminate).
  - injection H as <-. injection E as <-.
    apply Forall_forall. intros j Hj.
    apply in_map_iff in Hj as (t & <- & Ht).
    exists t. split; [reflexivity|]. eapply tokens_clean. exact Ht.
  - destruct (AudioMetadata.flatten raw) as [res|e] eqn:Hf; [|discriminate].
    simpl in H. injection H as <-. injection E as <-.
    pose proof (flatten_clean _ _ Hf) as Hc.
    apply Forall_forall. intros j Hj.
    apply in_map_iff in Hj as (t & <- & Ht).
    rewrite Forall_forall in Hc. exists t. split; [reflexivity|].
    now apply Hc.
Qed.

Lemma wanted_loop_genres (f : MediaFile) (wanted : list string) :
  forall meta meta',
    AudioMetadata.wanted_loop f wanted meta = Ok meta' ->
    (forall l, dict_get "genres" meta = Some (JList l) ->
       Forall (fun j => exists t, j = JStr t /\ lower t = t
                                  /\ MediaModel.has_char "," t = false) l) ->
    incl (map fst meta) (map fst meta ++ wanted) ->
    (forall l, dict_get "genres" meta' = Some (JList l) ->
       Forall (fun j => exists t, j = JStr t /\ lower t = t
                                  /\ MediaModel.has_char "," t = false) l)
    /\ incl (map fst meta') (map fst meta ++ wanted).
Proof.
  induction wanted as [|field rest IH]; simpl; intros meta meta' H Hg Hk.
  - injection H as <-. now split.
  - destruct (truthy_json (json_get field (mf_fields f))).
    + destruct (String.eqb_spec field "genres") as [->|Hne].
      * destruct (AudioMetadata.genres _) as [v'|e] eqn:Hv; [|discriminate].
        simpl in H. apply IH in H as (H1 & H2).
        -- split; [exact H1|].
           intros k Hin. apply H2 in Hin. apply in_app_or in Hin as [Hin|Hin].
           ++ apply ImageMetadataExtra.in_dict_set_keys in Hin as [->|Hin];
                apply in_or_app; [right; now left | now left].
           ++ apply in_or_app. right. now right.
        -- intros l. rewrite Lemmas.dict_get_set_same.
           intros E. injection E as E. eapply genres_clean; eassumption.
        -- intros k Hin. apply in_or_app. now left.
      * simpl in H. apply IH in H as (H1 & H2).
        -- split; [exact H1|].
           intros k Hin. apply H2 in Hin. apply in_app_or in Hin as [Hin|Hin].
           ++ apply ImageMetadataExtra.in_dict_set_keys in Hin as [->|Hin];
                apply in_or_app; [right; now left | now left].
           ++ apply in_or_app. right. now right.
        -- intros l. rewrite Lemmas.dict_get_set_other by exact Hne.
           apply Hg.
        -- intros k Hin. apply in_or_app. now left.
    + apply IH in H as (H1 & H2); trivial.
      * split; [exact H1|].
        intros k Hin. apply H2 in Hin. apply in_app_or in Hin as [Hin|Hin];
          apply in_or_app; [now left | right; now right].
      * intros k Hin. apply in_or_app. now left.
Qed.

(** X22.  In the metadata that [Audio.grab_metadata_from_source]
    returns, every key is one of [WANTED], and when the genres are a
    list, each of its elements is a string in lower case that holds no
    comma. *)
Theorem grab_genres_clean (w : World) (self : MediaRec) (meta : dict) :
  AudioMetadata.grab_metadata_from_source w self = Ok meta ->
  incl (map fst meta) AudioMetadata.WANTED
  /\ forall l, dict_get "genres" meta = Some (JList l) ->
       Forall (fun j => exists t, j = JStr t /\ lower t = t
                                  /\ MediaModel.has_char "," t = false) l.
Proof.
  unfold AudioMetadata.grab_metadata_from_source.
  destruct (dict_get _ (mediafiles w)) as [f|]; [|discriminate].
  intros H. apply wanted_loop_genres in H as (H1 & H2).
  - split; [exact H2 | exact H1].
  - discriminate.
  - intros k [].
Qed.

Lemma grab_genres_clean_witness :
  incl (map fst [("title", JStr "t");
                 ("genres", JList [JStr "rock"; JStr "pop"])])
       AudioMetadata.WANTED.
Proof.
  apply (grab_genres_clean
           (Examples4.world_with_genres (JList [JStr " Rock,,POP "]))
           Examples4.audio_plain).
  reflexivity.
Defined.

End GenresExtra.

(* ================================================================== *)
(** ** Genres kept as one string *)

Module GenresStringExtra.

Lemma wanted_loop_string (f : MediaFile) (s : string) :
  json_get "genres" (mf_fields f) = JStr s -> s <> "" ->
  forall wanted meta,
    exists meta',
      AudioMetadata.wanted_loop f wanted meta = Ok meta'
      /\ dict_get "genres" meta'
         = if str_in "genres" wanted
           then Some (JList (map JStr (AudioMetadata.tokens s)))
           else dict_get "genres" meta.
Proof.
  intros Hg Hs. induction wanted as [|field rest IH]; intros meta.
  - exists meta. split; reflexivity.
  - cbn [AudioMetadata.wanted_loop].
    unfold str_in. cbn [existsb]. fold (str_in "genres" rest).
    destruct (String.eqb_spec field "genres") as [->|Hne].
    + rewrite String.eqb_refl, Hg. simpl truthy_json.
      assert (Ht : truthy_str s = true)
        by (destruct s; [exfalso; now apply Hs | reflexivity]).
      rewrite Ht. simpl.
      destruct (IH (dict_set "genres"
                      (JList (map JStr (AudioMetadata.tokens s))) meta))
        as (meta' & H1 & H2).
      exists meta'. split; [exact H1|]. rewrite H2.
      destruct (str_in "genres" rest); [reflexivity|].
      apply Lemmas.dict_get_set_same.
    + assert (E : String.eqb "genres" field = false).
      { apply String.eqb_neq. congruence. }
      rewrite E. simpl orb.
      destruct (truthy_json (json_get field (mf_fields f))).
      * simpl.
        destruct (IH (dict_set field (json_get field (mf_fields f)) meta))
          as (meta' & H1 & H2).
        exists meta'. split; [exact H1|]. rewrite H2.
        destruct (str_in "genres" rest); [reflexivity|].
        now apply Lemmas.dict_get_set_other.
      * apply IH.
Qed.

Lemma tokens_blank (s : string) :
  In "" (AudioMetadata.tokens s)
  <-> exists u, In u (split "," s) /\ u <> "" /\ strip u = "".
Proof.
  unfold AudioMetadata.tokens. rewrite in_map_iff. split.
  - intros (u & Hu & Hin). apply filter_In in Hin as [Hin Ht].
    exists u. split; [exact Hin|]. split.
    + intros ->. discriminate.
    + now apply Lemmas.lower_empty.
  - intros (u & Hin & Hne & Hs). exists u. split.
    + rewrite Hs. reflexivity.
    + apply filter_In. split; [exact Hin|].
      destruct u; [congruence | reflexivity].
Qed.

(** X23.  When the file holds its genres as one non-empty string,
    [Audio.grab_metadata_from_source] returns, and the genres it
    returns are the pieces between the commas that are not empty, each
    stripped and lower-cased: the empty pieces are discarded before the
    stripping, so that a piece made of white space only is returned as
    an empty genre. *)
Theorem grab_genres_string (w : World) (self : MediaRec) (f : MediaFile)
  (s : string) :
  dict_get (Media.opt_str (file_path self)) (mediafiles w) = Some f ->
  json_get "genres" (mf_fields f) = JStr s ->
  s <> "" ->
  (exists meta,
     AudioMetadata.grab_metadata_from_source w self = Ok meta
     /\ dict_get "genres" meta
        = Some (JList (map JStr
                         (map (fun t => lower (strip t))
                              (filter truthy_str (split "," s))))))
  /\ (In "" (map (fun t => lower (strip t))
                 (filter truthy_str (split "," s)))
      <-> exists u, In u (split "," s) /\ u <> "" /\ strip u = "").
Proof.
  intros Hf Hg Hs. split.
  - unfold AudioMetadata.grab_metadata_from_source. rewrite Hf.
    destruct (wanted_loop_string f s Hg Hs AudioMetadata.WANTED [])
      as (meta & H1 & H2).
    exists meta. split; [exact H1 | exact H2].
  - apply tokens_blank.
Qed.

Lemma grab_genres_string_witness :
  exists meta,
    AudioMetadata.grab_metadata_from_source
      (Examples4.world_with_genres (JStr "Rock, ,,pop")) Examples4.audio_plain
    = Ok meta
    /\ dict_get "genres" meta
       = Some (JList [JStr "rock"; JStr ""; JStr "pop"]).
Proof.
  apply (grab_genres_string
           (Examples4.world_with_genres (JStr "Rock, ,,pop"))
           Examples4.audio_plain
           (Examples4.file_with_genres (JStr "Rock, ,,pop")) "Rock, ,,pop").
  - reflexivity.
  - reflexivity.
  - discriminate.
Defined.

End GenresStringExtra.

(* ================================================================== *)
(** ** What the video hook writes *)

Module VideoExtra.

Lemma video_genres_loop_exact (tag_list : list string) (tokens : list string) :
  forall w acc,
    exists w',
      Video.genres_loop w tag_list (map JStr tokens) acc
      = (Ok (acc ++ map JStr (VideoGenres.written tag_list tokens))%list, w')
      /\ map tag_name (tag_table w')
         = (map tag_name (tag_table w)
            ++ VideoGenres.inserted tag_list tokens)%list
      /\ mediafiles w' = mediafiles w.
Proof.
  unfold VideoGenres.written, VideoGenres.inserted.
  induction tokens as [|t tokens IH]; intros w acc;
    cbn [map Video.genres_loop filter].
  - exists w. rewrite !app_nil_r. repeat split.
  - destruct (str_in t tag_list) eqn:E; cbn [negb].
    + destruct (IH w (acc ++ [JStr t])%list) as (w' & H1 & H2 & H3).
      exists w'. rewrite H1, <- app_assoc. repeat split; assumption.
    + cbn [map filter].
      destruct (truthy_str (lower (strip t))) eqn:Et.
      * destruct (IH (snd (Store.tag_insert w (lower (strip t)) "video"))
                     (acc ++ [JStr (lower (strip t))])%list)
          as (w' & H1 & H2 & H3).
        exists w'. rewrite H1, <- app_assoc. repeat split; [|exact H3].
        rewrite H2. simpl. rewrite map_app, <- app_assoc. reflexivity.
      * destruct (IH w (acc ++ [JStr (lower (strip t))])%list)
          as (w' & H1 & H2 & H3).
        exists w'. rewrite H1, <- app_assoc. repeat split; assumption.
Qed.

Lemma fold_set_other (items : dict) (k : string) :
  forall f,
    dict_get k items = None ->
    dict_get k (fold_left (fun f kv => dict_set (fst kv) (snd kv) f) items f)
    = dict_get k f.
Proof.
  induction items as [|[k' v'] items IH]; simpl; intros f H; [reflexivity|].
  destruct (String.eqb_spec k k') as [->|Hne]; [discriminate|].
  rewrite IH by exact H. apply Lemmas.dict_get_set_other. congruence.
Qed.

Lemma video_fields_loop_plain (tag_list : list string) (items : dict) :
  forall w f,
    dict_get "genres" items = None ->
    Video.fields_loop w tag_list f items
    = (Ok (fold_left (fun f kv => dict_set (fst kv) (snd kv) f) items f), w).
Proof.
  induction items as [|[k v] items IH]; intros w f H;
    cbn [Video.fields_loop fold_left]; [reflexivity|].
  cbn [dict_get] in H. revert H.
  destruct (String.eqb_spec "genres" k) as [<-|Hne]; [discriminate|].
  intros H.
  assert (E : String.eqb k "genres" = false).
  { apply String.eqb_neq. congruence. }
  rewrite E. now apply IH.
Qed.

Lemma video_fields_loop_exact (tag_list : list string) (tokens : list string)
  (items : dict) :
  forall w f,
    NoDup (map fst items) ->
    dict_get "genres" items = Some (JList (map JStr tokens)) ->
    exists f' w',
      Video.fields_loop w tag_list f items = (Ok f', w')
      /\ map tag_name (tag_table w')
         = (map tag_name (tag_table w)
            ++ VideoGenres.inserted tag_list tokens)%list
      /\ dict_get "genres" f'
         = Some (JList (map JStr (VideoGenres.written tag_list tokens)))
      /\ mediafiles w' = mediafiles w.
Proof.
  induction items as [|[k v] items IH]; intros w f Hnd Hg;
    [discriminate|].
  cbn [Video.fields_loop]. cbn [dict_get] in Hg. cbn [map fst] in Hnd.
  apply NoDup_cons_iff in Hnd as [Hk Hnd]. revert Hg.
  destruct (String.eqb_spec "genres" k) as [<-|Hne]; intros Hg.
  - injection Hg as ->. rewrite String.eqb_refl.
    destruct (video_genres_loop_exact tag_list tokens w [])
      as (w1 & H1 & H2 & H3).
    rewrite H1. cbn [app].
    assert (Hrest : dict_get "genres" items = None).
    { now apply Lemmas.dict_get_none_keys. }
    rewrite video_fields_loop_plain by exact Hrest.
    do 2 eexists. split; [reflexivity|]. split; [exact H2|].
    split; [|exact H3].
    rewrite fold_set_other by exact Hrest.
    apply Lemmas.dict_get_set_same.
  - assert (E : String.eqb k "genres" = false).
    { apply String.eqb_neq. congruence. }
    rewrite E. now apply IH.
Qed.

(** X24.  For a video entity whose metadata give the genres as a list
    of strings: when [write_metadata_to_source] returns, it has
    inserted one video tag for every token, counted with its
    repetitions, that is not the name of a video tag at the start of
    the call and whose cleaned form is not empty, under that cleaned
    form, and no other tag. *)
Theorem video_write_genres (w w' : World) (self : MediaRec)
  (items : dict) (tokens : list string) :
  meta self = JDict items ->
  NoDup (map fst items) ->
  dict_get "genres" items = Some (JList (map JStr tokens)) ->
  Video.write_metadata_to_source w self = (Ok tt, w') ->
  map tag_name (tag_table w')
  = (map tag_name (tag_table w)
     ++ VideoGenres.inserted
          (map tag_name (Store.tags_by_media_type w "video"))
          tokens)%list.
Proof.
  intros Hm Hnd Hg. unfold Video.write_metadata_to_source.
  destruct (dict_get _ (mediafiles w)) as [f|]; [|discriminate].
  rewrite Hm.
  destruct (video_fields_loop_exact
              (map tag_name (Store.tags_by_media_type w "video"))
              tokens items w (mf_fields f) Hnd Hg)
    as (f' & w1 & H1 & H2 & _).
  rewrite H1. intros H. injection H as <-. exact H2.
Qed.

Lemma video_write_genres_witness :
  match Video.write_metadata_to_source Examples4.video_world
          (Examples.video_with_genres
             [JStr "rock"; JStr "Pop"; JStr " "; JStr "Pop"]) with
  | (Ok _, w') =>
      map tag_name (tag_table w') = ["rock"; "pop"; "pop"; "pop"]
  | (Raise _, _) => False
  end.
Proof.
  destruct (Video.write_metadata_to_source Examples4.video_world
              (Examples.video_with_genres
                 [JStr "rock"; JStr "Pop"; JStr " "; JStr "Pop"]))
    as [[[]|e] w'] eqn:E.
  - apply (video_write_genres Examples4.video_world w'
             (Examples.video_with_genres
                [JStr "rock"; JStr "Pop"; JStr " "; JStr "Pop"])
             [("genres",
               JList [JStr "rock"; JStr "Pop"; JStr " "; JStr "Pop"])]
             ["rock"; "Pop"; " "; "Pop"]).
    + reflexivity.
    + repeat constructor. intros [].
    + reflexivity.
    + exact E.
  - vm_compute in E. discriminate.
Defined.

End VideoExtra.
